(** * Client-side authentication session of the AI Image Gallery front end

    A shallow embedding of

    - [services/api.ts]   : the [ApiClient] wrapper and its 401 interceptor,
    - [stores/auth.ts]    : the pinia session store [useAuthStore],
    - [router/index.ts]   : the route table,
    - [main.ts]           : the bootstrap sequence and the [beforeEach] guard,

    together with the properties of the session state machine.

    Asynchronous functions are modelled as state transformers over a
    [World] that can settle in two ways (fulfilled or rejected).  Every
    operation runs to completion before the next one starts: the
    interleaving of two operations that are in flight at the same time is
    outside this model.  The backend and the axios adapter are an oracle
    [net] that is asked once per request handed to the transport. *)

From Stdlib Require Import String List Bool Arith ZArith.
From Equations Require Import Equations.
From Equations.Prop Require Import Logic.
Import ListNotations.

(* The unfolding lemmas of well-founded definitions are proved without
   functional extensionality: the development uses no axiom. *)
Unset Equations With Funext.

Open Scope string_scope.

(* ===================================================================== *)
(** ** Data model                                                          *)
(* ===================================================================== *)

(** [interface UserOut] of services/api.ts. *)
Record UserOut := mkUserOut {
  access_token : option string;
  refresh_token : option string;
  user_id : string;
  email : string
}.

(** What a variable of TypeScript type [UserOut | null] can hold at run
    time.  [undefined] is kept apart from [null]: [response.data.data!]
    in [ApiClient.login] is [undefined] when the envelope has no [data]. *)
Inductive JsUser :=
| JNull
| JUndefined
| JUser (u : UserOut).

(** JavaScript truthiness of such a value ([if (user)], [a && user]). *)
Definition truthy (v : JsUser) : bool :=
  match v with
  | JUser _ => true
  | JNull | JUndefined => false
  end.

(** Request bodies: [LoginRequest]/[SignupRequest], [PasswordResetRequest],
    [UpdatePasswordRequest], or none. *)
(** [LoginRequest] and [SignupRequest]: the same two fields. *)
Record Credentials := mkCredentials {
  cred_email : string;
  cred_password : string
}.

Inductive RequestData :=
| NoData
| CredentialsData (credentials : Credentials)
| PasswordResetData (reset_email : string)
| UpdatePasswordData (upd_access_token upd_new_password : string).

Inductive Method := GET | POST.

(** The axios request configuration of one outbound call.  [_retry] is the
    flag the interceptor writes on it; the replay is issued with the same
    object, so the flag travels with the call. *)
Record RequestConfig := mkConfig {
  method : Method;
  url : string;
  data : RequestData;
  _retry : bool
}.

(** The JSON body of a reply: the [ApiResponse<T>] envelope ([data],
    [message]) and, on rejections, the [detail] text of the server. *)
Record ApiResponse := mkApiResponse {
  payload : option UserOut;
  message : option string;
  detail : option string
}.

Record AxiosResponse := mkResponse {
  status : Z;
  body : ApiResponse
}.

(** Values that are thrown: an [AxiosError] (with the configuration of the
    call that failed and the reply, when there was one) or a plain
    [Error]. *)
Inductive JsError :=
| AxiosError (msg : string) (config : RequestConfig) (response : option AxiosResponse)
| PlainError (msg : string).

(** [err.message] *)
Definition err_message (e : JsError) : string :=
  match e with
  | AxiosError m _ _ => m
  | PlainError m => m
  end.

(** [err.response] *)
Definition err_response (e : JsError) : option AxiosResponse :=
  match e with
  | AxiosError _ _ r => r
  | PlainError _ => None
  end.

(** [err.response?.status] *)
Definition err_status (e : JsError) : option Z :=
  option_map status (err_response e).

(** [err.response?.data?.detail] *)
Definition err_detail (e : JsError) : option string :=
  match err_response e with
  | Some r => detail (body r)
  | None => None
  end.

(** The refs of the store [useAuthStore] (stores/auth.ts, lines 11-15). *)
Record AuthState := mkAuthState {
  user : JsUser;
  isLoading : bool;
  error : option string;
  isInitialized : bool;
  hasCredentials : bool
}.

(** Everything the modelled code reads or writes: the store, the requests
    handed to the transport so far (oldest first), the events dispatched on
    [window], the console and [document.title]. *)
Record World := mkWorld {
  store : AuthState;
  sent : list RequestConfig;
  events : list string;
  console : list string;
  title : string
}.

Definition initialAuthState : AuthState :=
  mkAuthState JNull false None false false.

Definition initialWorld : World :=
  mkWorld initialAuthState [] [] [] "".

(** How a promise settles. *)
Inductive Settled (A : Type) :=
| Fulfilled (a : A)
| Rejected (e : JsError).
Arguments Fulfilled {A} a.
Arguments Rejected {A} e.

(** What the transport answers to one request: a reply the adapter
    resolves with, or a rejection (a reply with an error status, or none at
    all for a network fault or a timeout). *)
Inductive NetOutcome :=
| NetResolve (r : AxiosResponse)
| NetReject (msg : string) (r : option AxiosResponse).

(** The oracle: the outcome of the [n]-th request handed to the transport. *)
Definition Network := nat -> RequestConfig -> NetOutcome.

(* ===================================================================== *)
(** ** A state-and-rejection monad for [async] functions                   *)
(* ===================================================================== *)

Definition Async (A : Type) : Type := World -> Settled A * World.

Definition ret {A} (a : A) : Async A := fun w => (Fulfilled a, w).

Definition throw {A} (e : JsError) : Async A := fun w => (Rejected e, w).

Definition bind {A B} (m : Async A) (k : A -> Async B) : Async B :=
  fun w =>
    match m w with
    | (Fulfilled a, w1) => k a w1
    | (Rejected e, w1) => (Rejected e, w1)
    end.

(** [try { body } catch (err) { handler }] *)
Definition try_catch {A} (body : Async A) (handler : JsError -> Async A) : Async A :=
  fun w =>
    match body w with
    | (Fulfilled a, w1) => (Fulfilled a, w1)
    | (Rejected e, w1) => handler e w1
    end.

(** [try { body } finally { cleanup }]: the cleanup runs on both exits and
    keeps the completion of the body unless it throws itself. *)
Definition try_finally {A} (body : Async A) (cleanup : Async unit) : Async A :=
  fun w =>
    let '(r, w1) := body w in
    match cleanup w1 with
    | (Fulfilled _, w2) => (r, w2)
    | (Rejected e, w2) => (Rejected e, w2)
    end.

Declare Scope async_scope.
Delimit Scope async_scope with async.
Notation "x <- m ;; k" := (bind m (fun x => k))
  (at level 61, m at next level, right associativity) : async_scope.
Notation "m ;; k" := (bind m (fun _ => k))
  (at level 61, right associativity) : async_scope.
Open Scope async_scope.

(** Pattern for a value paired with the equation that [inspect] records. *)
Notation "x 'eqn:' p" := (exist _ x p) (only parsing, at level 20).

(** Writes. *)
Definition modify_store (f : AuthState -> AuthState) : Async unit :=
  fun w => (Fulfilled tt, mkWorld (f (store w)) (sent w) (events w) (console w) (title w)).

Definition set_user (v : JsUser) : Async unit :=
  modify_store (fun s => mkAuthState v (isLoading s) (error s) (isInitialized s) (hasCredentials s)).
Definition set_isLoading (b : bool) : Async unit :=
  modify_store (fun s => mkAuthState (user s) b (error s) (isInitialized s) (hasCredentials s)).
Definition set_error (e : option string) : Async unit :=
  modify_store (fun s => mkAuthState (user s) (isLoading s) e (isInitialized s) (hasCredentials s)).
Definition set_isInitialized (b : bool) : Async unit :=
  modify_store (fun s => mkAuthState (user s) (isLoading s) (error s) b (hasCredentials s)).
Definition set_hasCredentials (b : bool) : Async unit :=
  modify_store (fun s => mkAuthState (user s) (isLoading s) (error s) (isInitialized s) b).

(** [window.dispatchEvent(new Event(name))] *)
Definition dispatchEvent (name : string) : Async unit :=
  fun w => (Fulfilled tt, mkWorld (store w) (sent w) (events w ++ [name]) (console w) (title w)).

(** [console.warn] / [console.error]: the label of the line is recorded. *)
Definition console_log (line : string) : Async unit :=
  fun w => (Fulfilled tt, mkWorld (store w) (sent w) (events w) (console w ++ [line]) (title w)).

(** [document.title = t] *)
Definition set_title (t : string) : Async unit :=
  fun w => (Fulfilled tt, mkWorld (store w) (sent w) (events w) (console w) t).

(** Reads. *)
Definition get_store : Async AuthState := fun w => (Fulfilled (store w), w).

(** [String.prototype.includes] *)
Fixpoint includes (s sub : string) : bool :=
  if prefix sub s then true
  else match s with
       | EmptyString => false
       | String _ rest => includes rest sub
       end.

(** [a || b] on strings: the first operand when it is a non-empty string. *)
Definition or_else (a : option string) (b : string) : string :=
  match a with
  | Some (String c rest) => String c rest
  | Some EmptyString | None => b
  end.

(* ===================================================================== *)
(** ** services/api.ts : [ApiClient]                                       *)
(* ===================================================================== *)

Module Api.

Definition AUTH_LOGOUT : string := "auth:logout".

(** The test at the head of the response interceptor (lines 170-175). *)
Definition isAuthEndpoint (requestUrl : string) : bool :=
  includes requestUrl "/auth/login" ||
  includes requestUrl "/auth/signup" ||
  includes requestUrl "/auth/logout" ||
  includes requestUrl "/auth/refresh".

(** [error.response?.status === 401] *)
Definition is401 (e : JsError) : bool :=
  match err_status e with
  | Some s => Z.eqb s 401
  | None => false
  end.

Definition post (u : string) (d : RequestData) : RequestConfig := mkConfig POST u d false.
Definition get (u : string) : RequestConfig := mkConfig GET u NoData false.

(** [this.instance.post("/auth/refresh")] *)
Definition refreshRequest : RequestConfig := post "/auth/refresh" NoData.

(** [originalRequest._retry = true] *)
Definition mark_retry (c : RequestConfig) : RequestConfig :=
  mkConfig (method c) (url c) (data c) true.

(** The interceptor can start further calls only for a request that is
    neither an authentication endpoint nor already marked. *)
Definition retry_budget (c : RequestConfig) : nat :=
  if isAuthEndpoint (url c) || _retry c then 0 else 1.

Section Client.

Variable net : Network.

(** The adapter: the request is handed over, the oracle answers. *)
Definition transport (c : RequestConfig) : Async AxiosResponse :=
  fun w =>
    let w1 := mkWorld (store w) (sent w ++ [c]) (events w) (console w) (title w) in
    match net (length (sent w)) c with
    | NetResolve r => (Fulfilled r, w1)
    | NetReject m r => (Rejected (AxiosError m c r), w1)
    end.

(** [this.instance(config)]: the transport followed by the response
    interceptor of the constructor (lines 160-194).  A fulfilled reply is
    passed on.  On a rejection the interceptor rejects at once for an
    authentication endpoint; on a 401 for a call not yet marked it marks
    the call, posts [/auth/refresh] through the same instance and then
    returns the replay of the call (not awaited inside the [try], so a
    failure of the replay is not caught); a failure of the refresh is
    caught: warning, event, rejection with [refreshError]. *)
Equations? instance_request (c : RequestConfig) (w : World) : Settled AxiosResponse * World
  by wf (retry_budget c) lt :=
instance_request c w with transport c w := {
  | (Fulfilled r, w1) => (Fulfilled r, w1)
  | (Rejected err, w1) with inspect (isAuthEndpoint (url c)) := {
      | true eqn: Hauth => (Rejected err, w1)
      | false eqn: Hauth with inspect (is401 err && negb (_retry c)) := {
          | false eqn: Hfirst => (Rejected err, w1)
          | true eqn: Hfirst with instance_request refreshRequest w1 := {
              | (Fulfilled _, w2) => instance_request (mark_retry c) w2
              | (Rejected refreshError, w2) =>
                  ((console_log "Refresh failed, user is no longer authenticated" ;;
                    dispatchEvent AUTH_LOGOUT ;;
                    throw refreshError) w2)
            }
        }
    }
}.
Proof.
  all: apply andb_prop in Hfirst; destruct Hfirst as [_ Hretry];
    apply negb_true_iff in Hretry;
    unfold retry_budget; cbn [mark_retry url _retry];
    rewrite Hauth, Hretry, ?orb_true_r; constructor.
Defined.

(** [response.data.data!]: the assertion is erased, an absent field reads
    as [undefined]. *)
Definition data_of (response : AxiosResponse) : JsUser :=
  match payload (body response) with
  | Some u => JUser u
  | None => JUndefined
  end.

(** [async login(credentials)] (lines 204-211) *)
Definition login (credentials : Credentials) : Async JsUser :=
  response <- instance_request (post "/auth/login" (CredentialsData credentials)) ;;
  ret (data_of response).

(** [async signup(data)] (lines 213-220) *)
Definition signup (credentials : Credentials) : Async JsUser :=
  response <- instance_request (post "/auth/signup" (CredentialsData credentials)) ;;
  ret (data_of response).

(** [async logout()] (lines 222-229): the event is dispatched in the
    [finally], whatever the request did. *)
Definition logout : Async unit :=
  try_finally
    (instance_request (post "/auth/logout" NoData) ;; ret tt)
    (dispatchEvent AUTH_LOGOUT).

(** [async refreshAccessToken()] (lines 231-234) *)
Definition refreshAccessToken : Async unit :=
  instance_request (post "/auth/refresh" NoData) ;; ret tt.

(** [async requestPasswordReset(data)] (lines 236-241) *)
Definition requestPasswordReset (reset_email : string) : Async ApiResponse :=
  response <- instance_request (post "/auth/password-reset" (PasswordResetData reset_email)) ;;
  ret (body response).

(** [async updatePassword(data)] (lines 243-248) *)
Definition updatePassword (token new_password : string) : Async ApiResponse :=
  response <- instance_request (post "/auth/update-password" (UpdatePasswordData token new_password)) ;;
  ret (body response).

(** [async getCurrentUser()] (lines 250-266): an envelope without [data]
    is an error; every error is logged and thrown again. *)
Definition getCurrentUser : Async UserOut :=
  try_catch
    (response <- instance_request (get "/auth/me") ;;
     match payload (body response) with
     | None => throw (PlainError "Invalid response structure from /auth/me")
     | Some u => ret u
     end)
    (fun error => console_log "getCurrentUser error:" ;; throw error).

End Client.

End Api.

(* ===================================================================== *)
(** ** stores/auth.ts : [useAuthStore]                                     *)
(* ===================================================================== *)

Module AuthStore.

(** [hasCredentials.value || user.value !== null] *)
Definition isAuthenticated (s : AuthState) : bool :=
  hasCredentials s ||
  match user s with
  | JNull => false
  | JUndefined | JUser _ => true
  end.

(** [err.response?.data?.detail || err.message || fallback] *)
Definition errorMsg (err : JsError) (fallback : string) : string :=
  or_else (err_detail err) (or_else (Some (err_message err)) fallback).

Section Store.

Variable net : Network.

(** [async function login(credentials)] (lines 21-37) *)
Definition login (credentials : Credentials) : Async JsUser :=
  set_isLoading true ;;
  set_error None ;;
  try_finally
    (try_catch
       (response <- Api.login net credentials ;;
        set_user response ;;
        set_hasCredentials true ;;
        ret response)
       (fun err =>
          set_error (Some (errorMsg err "Login failed")) ;;
          throw err))
    (set_isLoading false).

(** [async function signup(credentials)] (lines 39-55) *)
Definition signup (credentials : Credentials) : Async JsUser :=
  set_isLoading true ;;
  set_error None ;;
  try_finally
    (try_catch
       (response <- Api.signup net credentials ;;
        set_user response ;;
        set_hasCredentials true ;;
        ret response)
       (fun err =>
          set_error (Some (errorMsg err "Signup failed")) ;;
          throw err))
    (set_isLoading false).

(** [async function logout()] (lines 57-75) *)
Definition logout : Async unit :=
  set_isLoading true ;;
  set_error None ;;
  try_finally
    (try_catch
       (Api.logout net ;;
        set_user JNull ;;
        set_hasCredentials false)
       (fun err =>
          console_log "Logout error:" ;;
          set_user JNull ;;
          set_hasCredentials false ;;
          dispatchEvent Api.AUTH_LOGOUT ;;
          throw err))
    (set_isLoading false).

(** [async function fetchCurrentUser()] (lines 77-94) *)
Definition fetchCurrentUser : Async JsUser :=
  set_isLoading true ;;
  set_error None ;;
  try_finally
    (try_catch
       (response <- Api.getCurrentUser net ;;
        set_user (JUser response) ;;
        set_hasCredentials true ;;
        ret (JUser response))
       (fun _ =>
          set_user JNull ;;
          set_hasCredentials false ;;
          ret JNull))
    (set_isLoading false ;;
     set_isInitialized true).

(** [async function restoreAuthFromCookies()] (lines 96-113) *)
Definition restoreAuthFromCookies : Async JsUser :=
  try_finally
    (try_catch
       (response <- Api.getCurrentUser net ;;
        set_user (JUser response) ;;
        set_hasCredentials true ;;
        ret (JUser response))
       (fun _ =>
          set_user JNull ;;
          set_hasCredentials false ;;
          ret JNull))
    (set_isInitialized true).

(** [async function requestPasswordReset(email)] (lines 115-127) *)
Definition requestPasswordReset (reset_email : string) : Async ApiResponse :=
  set_isLoading true ;;
  set_error None ;;
  try_finally
    (try_catch
       (Api.requestPasswordReset net reset_email)
       (fun err =>
          set_error (Some (errorMsg err "Password reset failed")) ;;
          throw err))
    (set_isLoading false).

(** [async function updatePassword(newPassword)] (lines 129-144) *)
Definition updatePassword (newPassword : string) : Async ApiResponse :=
  set_isLoading true ;;
  set_error None ;;
  try_finally
    (try_catch
       (Api.updatePassword net "" newPassword)
       (fun err =>
          set_error (Some (errorMsg err "Update password failed")) ;;
          throw err))
    (set_isLoading false).

(** [function clearError()] (lines 146-148) *)
Definition clearError : Async unit :=
  set_error None.

(** The public operations of the store, as calls. *)
Inductive StoreOp :=
| OpLogin (credentials : Credentials)
| OpSignup (credentials : Credentials)
| OpLogout
| OpFetchCurrentUser
| OpRestore
| OpRequestPasswordReset (reset_email : string)
| OpUpdatePassword (newPassword : string)
| OpClearError.

(** The world after one call has settled, fulfilled or rejected. *)
Definition run_op (op : StoreOp) (w : World) : World :=
  match op with
  | OpLogin c => snd (login c w)
  | OpSignup c => snd (signup c w)
  | OpLogout => snd (logout w)
  | OpFetchCurrentUser => snd (fetchCurrentUser w)
  | OpRestore => snd (restoreAuthFromCookies w)
  | OpRequestPasswordReset e => snd (requestPasswordReset e w)
  | OpUpdatePassword p => snd (updatePassword p w)
  | OpClearError => snd (clearError w)
  end.

(** A sequence of calls, each started when the one before has settled. *)
Definition run_ops (ops : list StoreOp) (w : World) : World :=
  fold_left (fun acc op => run_op op acc) ops w.

End Store.

End AuthStore.

(* ===================================================================== *)
(** ** router/index.ts : the route table                                   *)
(* ===================================================================== *)

Module Router.

(** [meta: { requiresAuth?, title? }] *)
Record RouteMeta := mkMeta {
  requiresAuth : option bool;
  meta_title : option string
}.

Record RouteRecord := mkRoute {
  path : string;
  name : string;
  meta : RouteMeta
}.

(** [const routes: RouteRecordRaw[]] *)
Definition routes : list RouteRecord :=
  [ mkRoute "/login" "login" (mkMeta (Some false) (Some "Login"));
    mkRoute "/signup" "signup" (mkMeta (Some false) (Some "Sign Up"));
    mkRoute "/forgot-password" "forgot-password" (mkMeta (Some false) (Some "Forgot Password"));
    mkRoute "/update-password" "update-password" (mkMeta (Some true) (Some "Update Password"));
    mkRoute "/" "home" (mkMeta (Some true) (Some "Home"));
    mkRoute "/:pathMatch(.*)*" "not-found" (mkMeta None (Some "404 Not Found")) ].

(** The destination [to] handed to a guard: the matched record's name and
    meta, and the full path that was asked for. *)
Record RouteLocation := mkLocation {
  to_name : string;
  fullPath : string;
  to_meta : RouteMeta
}.

Definition resolve (r : RouteRecord) (requested : string) : RouteLocation :=
  mkLocation (name r) requested (meta r).

(** [if (to.meta.requiresAuth)] *)
Definition requires_auth (to : RouteLocation) : bool :=
  match requiresAuth (to_meta to) with
  | Some b => b
  | None => false
  end.

(** What a guard passes to [next]: nothing, or a location to go to
    instead. *)
Inductive NavigationResult :=
| Next
| NextTo (target : string) (query : list (string * string)) (replace : bool).

End Router.

(* ===================================================================== *)
(** ** main.ts : bootstrap and navigation guard                            *)
(* ===================================================================== *)

Module Main.

Import Router.

(** [await p] for a promise that has settled. *)
Definition await {A} (p : Settled A) : Async A := fun w => (p, w).

(** [next({ name: "login", query: { redirect: to.fullPath }, replace: true })] *)
Definition toLogin (to : RouteLocation) : NavigationResult :=
  NextTo "login" [("redirect", fullPath to)] true.

Section App.

Variable net : Network.

(** [const authPromise = authStore.restoreAuthFromCookies()] (line 16),
    started in the world [w0] the application boots in. *)
Definition authPromise (w0 : World) : Settled JsUser :=
  fst (AuthStore.restoreAuthFromCookies net w0).

(** The world the bootstrap leaves. *)
Definition booted (w0 : World) : World :=
  snd (AuthStore.restoreAuthFromCookies net w0).

(** [router.beforeEach(async (to, _from, next) => ...)] (lines 19-71) *)
Definition beforeEach (w0 : World) (to : RouteLocation) : Async NavigationResult :=
  await (authPromise w0) ;;
  set_title (or_else (meta_title (to_meta to)) "App" ++ " - AI Image Gallery") ;;
  s <- get_store ;;
  if String.eqb (to_name to) "login" && truthy (user s) then
    ret (NextTo "home" [] true)
  else if requires_auth to then
    if negb (hasCredentials s) then
      ret (toLogin to)
    else if truthy (user s) then
      ret Next
    else
      try_catch
        (fetched <- AuthStore.fetchCurrentUser net ;;
         if truthy fetched then ret Next else ret (toLogin to))
        (fun _ =>
           console_log "Failed to fetch user:" ;;
           set_user JNull ;;
           ret (toLogin to))
  else
    ret Next.

End App.

End Main.

(* ===================================================================== *)
(** ** The page components: handlers over the store and the router         *)
(* ===================================================================== *)

(** What the handlers share.  A handler is an [async] function over the
    world and the refs [R] of its component; the refs, like the world,
    keep what was written before a rejection.  A string is read as the
    sequence of its code units, which [length] counts. *)
Module Page.

(** The argument of [router.push]: a path, or [{ path, replace: true }]. *)
Record PushTarget := mkPush {
  push_path : string;
  push_replace : bool
}.

(** [setTimeout(() => router.push(target), delay)], not yet fired. *)
Record Timer := mkTimer {
  delay : nat;
  target : PushTarget
}.

Definition Handler (R A : Type) : Type := R * World -> Settled A * (R * World).

Definition hret {R A} (a : A) : Handler R A := fun st => (Fulfilled a, st).

Definition hbind {R A B} (m : Handler R A) (k : A -> Handler R B) : Handler R B :=
  fun st =>
    match m st with
    | (Fulfilled a, st1) => k a st1
    | (Rejected e, st1) => (Rejected e, st1)
    end.

(** A call into the store, the client or the router. *)
Definition lift {R A} (m : Async A) : Handler R A :=
  fun st =>
    let '(r, w1) := m (snd st) in (r, (fst st, w1)).

(** A write to the refs of the component. *)
Definition assign {R} (f : R -> R) : Handler R unit :=
  fun st => (Fulfilled tt, (f (fst st), snd st)).

(** [try { body } catch (error) { handler }] *)
Definition htry_catch {R A} (body : Handler R A) (handler : JsError -> Handler R A)
  : Handler R A :=
  fun st =>
    match body st with
    | (Fulfilled a, st1) => (Fulfilled a, st1)
    | (Rejected e, st1) => handler e st1
    end.

(** [try { body } finally { cleanup }] *)
Definition htry_finally {R A} (body : Handler R A) (cleanup : Handler R unit)
  : Handler R A :=
  fun st =>
    let '(r, st1) := body st in
    match cleanup st1 with
    | (Fulfilled _, st2) => (r, st2)
    | (Rejected e, st2) => (Rejected e, st2)
    end.

(** [!s] for a string [s] *)
Definition is_empty (s : string) : bool :=
  match s with
  | EmptyString => true
  | String _ _ => false
  end.

Declare Scope handler_scope.
Delimit Scope handler_scope with handler.
Notation "x <- m ;; k" := (hbind m (fun x => k))
  (at level 61, m at next level, right associativity) : handler_scope.
Notation "m ;; k" := (hbind m (fun _ => k))
  (at level 61, right associativity) : handler_scope.

End Page.

(** pages/LoginPage.vue *)
Module LoginPage.

Import Page.
Local Open Scope handler_scope.

Record Refs := mkRefs {
  email : string;
  password : string;
  isLoading : bool
}.

Definition with_isLoading (b : bool) (r : Refs) : Refs :=
  mkRefs (email r) (password r) b.

Section Component.

Variable net : Network.

(** [router.push] and [router.currentRoute.value.query.redirect]: the
    router is not part of this code. *)
Variable push : PushTarget -> Async unit.
Variable redirect : option string.

(** [async function handleLogin(e)] (lines 15-43) *)
Definition handleLogin : Handler Refs unit :=
  fun st =>
    let page := fst st in
    (if is_empty (email page) || is_empty (password page) then
       lift (set_error (Some "Please fill in all fields")) ;;
       lift (console_log "Login validation failed: missing fields") ;;
       hret tt
     else
       assign (with_isLoading true) ;;
       htry_finally
         (htry_catch
            (lift (AuthStore.login net (mkCredentials (email page) (password page))) ;;
             lift (push (mkPush (or_else redirect "/") true)))
            (fun _ =>
               lift (console_log "Login error:") ;;
               lift (console_log "Error details:")))
         (assign (with_isLoading false))) st.

End Component.

End LoginPage.

(** pages/SignupPage.vue *)
Module SignupPage.

Import Page.
Local Open Scope handler_scope.

Record Refs := mkRefs {
  email : string;
  password : string;
  successMessage : string;
  timers : list Timer
}.

Section Component.

Variable net : Network.

(** [onMounted(() => { authStore.clearError() })] (lines 15-17) *)
Definition onMounted : Handler Refs unit :=
  lift AuthStore.clearError.

(** [async function handleSignup()] (lines 19-53).  The handler writes
    [authStore.isLoading] itself, around the call to the store. *)
Definition handleSignup : Handler Refs unit :=
  fun st =>
    let page := fst st in
    (if is_empty (email page) || is_empty (password page) then
       lift (set_error (Some "Please fill in all fields")) ;;
       lift (console_log "Signup validation failed: missing fields") ;;
       hret tt
     else
       lift (set_isLoading true) ;;
       htry_finally
         (htry_catch
            (lift (AuthStore.signup net (mkCredentials (email page) (password page))) ;;
             assign (fun r =>
               mkRefs "" "" "Account created successfully! You can now log in."
                      (timers r ++ [mkTimer 2000 (mkPush "/login" false)])))
            (fun _ =>
               lift (console_log "Signup error:") ;;
               lift (console_log "Error details:")))
         (lift (set_isLoading false))) st.

End Component.

End SignupPage.

(** pages/ForgotPasswordPage.vue *)
Module ForgotPasswordPage.

Import Page.
Local Open Scope handler_scope.

Record Refs := mkRefs {
  email : string;
  isLoading : bool;
  submitted : bool;
  timers : list Timer
}.

Section Component.

Variable net : Network.

(** [async function handleSubmit()] (lines 17-35) *)
Definition handleSubmit : Handler Refs unit :=
  fun st =>
    let page := fst st in
    (if is_empty (email page) then
       lift (set_error (Some "Please enter your email")) ;;
       hret tt
     else
       assign (fun r => mkRefs (email r) true (submitted r) (timers r)) ;;
       htry_finally
         (htry_catch
            (lift (AuthStore.requestPasswordReset net (email page)) ;;
             assign (fun r =>
               mkRefs (email r) (isLoading r) true
                      (timers r ++ [mkTimer 3000 (mkPush "/login" false)])))
            (fun _ => lift (console_log "Password reset error:")))
         (assign (fun r => mkRefs (email r) false (submitted r) (timers r)))) st.

End Component.

End ForgotPasswordPage.

(** The page that updates the password (the component that calls
    [authStore.updatePassword]). *)
Module UpdatePasswordPage.

Import Page.
Local Open Scope handler_scope.

Record Refs := mkRefs {
  newPassword : string;
  confirmPassword : string;
  isLoading : bool;
  submitted : bool;
  timers : list Timer
}.

Section Component.

Variable net : Network.

(** [async function handleSubmit()] (lines 18-46) *)
Definition handleSubmit : Handler Refs unit :=
  fun st =>
    let page := fst st in
    (if is_empty (newPassword page) || is_empty (confirmPassword page) then
       lift (set_error (Some "Please fill in all fields")) ;;
       hret tt
     else if negb (String.eqb (newPassword page) (confirmPassword page)) then
       lift (set_error (Some "Passwords do not match")) ;;
       hret tt
     else if Nat.ltb (String.length (newPassword page)) 6 then
       lift (set_error (Some "Password must be at least 6 characters")) ;;
       hret tt
     else
       assign (fun r =>
         mkRefs (newPassword r) (confirmPassword r) true (submitted r) (timers r)) ;;
       htry_finally
         (htry_catch
            (lift (AuthStore.updatePassword net (newPassword page)) ;;
             assign (fun r =>
               mkRefs (newPassword r) (confirmPassword r) (isLoading r) true
                      (timers r ++ [mkTimer 2000 (mkPush "/" false)])))
            (fun _ => lift (console_log "Update password error:")))
         (assign (fun r =>
            mkRefs (newPassword r) (confirmPassword r) false (submitted r) (timers r)))) st.

End Component.

End UpdatePasswordPage.

(** pages/HomePage.vue *)
Module HomePage.

Import Page.
Local Open Scope handler_scope.

Record Refs := mkRefs {
  isLoggingOut : bool
}.

Section Component.

Variable net : Network.
Variable push : PushTarget -> Async unit.

(** [async function handleLogout()] (lines 12-25) *)
Definition handleLogout : Handler Refs unit :=
  assign (fun _ => mkRefs true) ;;
  htry_finally
    (htry_catch
       (lift (AuthStore.logout net) ;;
        lift (push (mkPush "/login" false)))
       (fun _ =>
          lift (console_log "Logout error:") ;;
          lift (set_user JNull) ;;
          lift (push (mkPush "/login" false))))
    (assign (fun _ => mkRefs false)).

End Component.

End HomePage.

(** The sidebar component (first part of the file that ends with the
    client). *)
Module Sidebar.

Import Page.

Section Component.

Variable net : Network.
Variable push : PushTarget -> Async unit.

(** [const handleLogout = async () => ...] (lines 21-24): the push is not
    awaited, so its outcome is not the handler's. *)
Definition handleLogout : Async unit :=
  AuthStore.logout net ;;
  (fun w => (Fulfilled tt, snd (push (mkPush "/login" false) w))).

End Component.

End Sidebar.

(* ===================================================================== *)
(** ** Vocabulary of the statements                                        *)
(* ===================================================================== *)

Open Scope list_scope.
Import Router.

(** A change of the store and of the title, leaving the traces alone. *)
Definition update (f : AuthState -> AuthState) (t : string -> string) (w : World) : World :=
  mkWorld (f (store w)) (sent w) (events w) (console w) (t (title w)).

(** [m] behaves the same under any such change, and carries it along. *)
Definition framed {A} (m : Async A) : Prop :=
  forall f t w, m (update f t w) = (fst (m w), update f t (snd (m w))).

Ltac run_async :=
  unfold bind, try_catch, try_finally, ret, throw, console_log, dispatchEvent,
    set_user, set_isLoading, set_error, set_isInitialized, set_hasCredentials,
    set_title, get_store, modify_store, update in *; simpl in *.

(** The requests of the store operations that talk to the authentication
    endpoints. *)
Definition logoutRequest : RequestConfig := Api.post "/auth/logout" NoData.

Definition loginRequest (credentials : Credentials) : RequestConfig :=
  Api.post "/auth/login" (CredentialsData credentials).

Definition signupRequest (credentials : Credentials) : RequestConfig :=
  Api.post "/auth/signup" (CredentialsData credentials).

(** The request of the identity fetch. *)
Definition meRequest : RequestConfig := Api.get "/auth/me".

(** The requests of one [getCurrentUser] call: one [GET /auth/me], to
    which the interceptor may add its refresh call and its one replay. *)
Definition one_identity_fetch (before after : list RequestConfig) : Prop :=
  after = before ++ [meRequest] \/
  after = before ++ [meRequest; Api.refreshRequest] \/
  after = before ++ [meRequest; Api.refreshRequest; Api.mark_retry meRequest].

(** The operations whose [finally] writes [isInitialized.value = true]. *)
Definition initializes (op : AuthStore.StoreOp) : bool :=
  match op with
  | AuthStore.OpFetchCurrentUser | AuthStore.OpRestore => true
  | _ => false
  end.

(** [document.title] as the guard sets it. *)
Definition titled (to : RouteLocation) (w : World) : World :=
  mkWorld (store w) (sent w) (events w) (console w)
          (or_else (meta_title (to_meta to)) "App" ++ " - AI Image Gallery")%string.

(** The outcome of a request is a reply with status 401. *)
Definition answered_401 (o : NetOutcome) : bool :=
  match o with
  | NetReject _ (Some r) => Z.eqb (status r) 401
  | NetReject _ None | NetResolve _ => false
  end.

(** How the adapter settles on an outcome of the oracle. *)
Definition settle (c : RequestConfig) (o : NetOutcome) : Settled AxiosResponse :=
  match o with
  | NetResolve r => Fulfilled r
  | NetReject m r => Rejected (AxiosError m c r)
  end.

(** The world after some requests were handed over, events dispatched and
    console lines written. *)
Definition extended (w : World) (requests : list RequestConfig)
    (dispatched lines : list string) : World :=
  mkWorld (store w) (sent w ++ requests) (events w ++ dispatched)
          (console w ++ lines) (title w).

(** The store and the title of [after] are those of [before]. *)
Definition same_page (before after : World) : Prop :=
  store after = store before /\ title after = title before.

(** The requests of the two password operations of the store. *)
Definition passwordResetRequest (reset_email : string) : RequestConfig :=
  Api.post "/auth/password-reset" (PasswordResetData reset_email).

Definition updatePasswordRequest (newPassword : string) : RequestConfig :=
  Api.post "/auth/update-password" (UpdatePasswordData "" newPassword).

(** The store after an operation that reports its failure: the session
    fields of [s] with [isLoading] back to [false] and [error] as given. *)
Definition reported (s : AuthState) (e : option string) : AuthState :=
  mkAuthState (user s) false e (isInitialized s) (hasCredentials s).

(** [user.value !== null] *)
Definition not_null (v : JsUser) : bool :=
  match v with
  | JNull => false
  | JUndefined | JUser _ => true
  end.

(** The message an operation records for an outcome of the client: none
    when it was fulfilled, the one derived from the error otherwise. *)
Definition recorded {A} (outcome : Settled A) (fallback : string) : option string :=
  match outcome with
  | Fulfilled _ => None
  | Rejected err => Some (AuthStore.errorMsg err fallback)
  end.

(** Whenever [user] is not [null], [hasCredentials] is set. *)
Definition user_has_credentials (s : AuthState) : bool :=
  implb (not_null (user s)) (hasCredentials s).

(** [next({ name: "home", replace: true })] *)
Definition toHome : NavigationResult := NextTo "home" [] true.

(** What the guard decides when it needs no identity fetch: the rules of
    lines 26-45 and 69-70 of main.ts read on a store. *)
Definition decided (to : RouteLocation) (s : AuthState) : NavigationResult :=
  if String.eqb (to_name to) "login" && truthy (user s) then toHome
  else if requires_auth to then
    if negb (hasCredentials s) then Main.toLogin to else Next
  else Next.

(** The guard reaches its identity fetch. *)
Definition must_fetch (to : RouteLocation) (s : AuthState) : bool :=
  negb (String.eqb (to_name to) "login" && truthy (user s)) &&
  requires_auth to && hasCredentials s && negb (truthy (user s)).

(** A promise was fulfilled. *)
Definition fulfilled {A} (o : Settled A) : bool :=
  match o with
  | Fulfilled _ => true
  | Rejected _ => false
  end.

(** The three complaints of the form that updates the password. *)
Definition updatePasswordComplaints : list string :=
  ["Please fill in all fields"%string;
   "Passwords do not match"%string;
   "Password must be at least 6 characters"%string].

(* ===================================================================== *)
(** ** Example backends and worlds                                         *)
(* ===================================================================== *)

(** The backend of the examples that rejects everything without a reply. *)
Definition net_down : Network := fun _ _ => NetReject "Network Error" None.

(** Credentials for the examples. *)
Definition someone : Credentials := mkCredentials "a@b.com" "secret".

(** A 401 reply and an empty 200 reply. *)
Definition expired : AxiosResponse :=
  mkResponse 401 (mkApiResponse None None (Some "Token expired")).

Definition ok_empty : AxiosResponse :=
  mkResponse 200 (mkApiResponse None None None).

(** A backend whose first answer is 401, that cannot be reached for the
    next request, and that answers 200 from then on. *)
Definition net_refresh_down : Network :=
  fun n _ =>
    match n with
    | 0 => NetReject "Request failed with status code 401" (Some expired)
    | 1 => NetReject "Network Error" None
    | _ => NetResolve ok_empty
    end.

(** A user, and a world in which that user is signed in. *)
Definition alice : UserOut := mkUserOut None None "u-1" "a@b.com".

Definition signed_in : World :=
  mkWorld (mkAuthState (JUser alice) false None true true) [] [] [] "".

(** A backend that knows [alice]: every request is answered 200 with that
    record in the envelope. *)
Definition net_alice : Network :=
  fun _ _ => NetResolve (mkResponse 200 (mkApiResponse (Some alice) None None)).

(** A backend whose first answer is 401 and whose later answers are 200
    with [alice]'s record: an expired credential that can be refreshed. *)
Definition net_expired_once : Network :=
  fun n c =>
    match n with
    | 0 => NetReject "Request failed with status code 401" (Some expired)
    | _ => net_alice n c
    end.

(** A backend that answers every request with 401. *)
Definition net_always_401 : Network :=
  fun _ _ => NetReject "Request failed with status code 401" (Some expired).

(** A backend that answers every request with 500. *)
Definition net_broken : Network :=
  fun _ _ =>
    NetReject "Request failed with status code 500"
      (Some (mkResponse 500 (mkApiResponse None None (Some "Internal error")))).

(** A backend that answers 200 with an envelope that carries no record. *)
Definition net_empty : Network := fun _ _ => NetResolve ok_empty.

(** The catch-all route of the table, which has no [requiresAuth]. *)
Definition not_found_route : RouteRecord :=
  mkRoute "/:pathMatch(.*)*" "not-found" (mkMeta None (Some "404 Not Found")).

(** The login route of the table. *)
Definition login_route : RouteRecord :=
  mkRoute "/login" "login" (mkMeta (Some false) (Some "Login")).

(** A router whose [push] does nothing and is fulfilled. *)
Definition push_nowhere : Page.PushTarget -> Async unit := fun _ => ret tt.

(** A router whose [push] is rejected. *)
Definition push_fails : Page.PushTarget -> Async unit :=
  fun _ => throw (PlainError "Navigation aborted").

(** The world in which something has set [authStore.isLoading = true], as
    the signup page does before it calls the store, and nothing else has
    happened. *)
Definition loading : World := snd (set_isLoading true initialWorld).

(** The home route of the table. *)
Definition home_route : RouteRecord :=
  mkRoute "/" "home" (mkMeta (Some true) (Some "Home")).

(** After a reload: the credential flag is set, the identity record is not
    loaded. *)
Definition reloaded : World :=
  mkWorld (mkAuthState JNull false None true true) [] [] [] "".

(* ===================================================================== *)
(** ** Properties                                                          *)
(* ===================================================================== *)

(** *** The interceptor, unfolded *)

Lemma retry_budget_refresh : Api.retry_budget Api.refreshRequest = 0.
Proof. reflexivity. Qed.

Lemma retry_budget_marked (c : RequestConfig) : Api.retry_budget (Api.mark_retry c) = 0.
Proof. unfold Api.retry_budget; simpl. now rewrite orb_true_r. Qed.

Section Interceptor.

Variable net : Network.

(** The interceptor as one conditional, for rewriting. *)
Lemma instance_request_body (c : RequestConfig) (w : World) :
  Api.instance_request net c w =
  match Api.transport net c w with
  | (Fulfilled r, w1) => (Fulfilled r, w1)
  | (Rejected err, w1) =>
      if Api.isAuthEndpoint (url c) then (Rejected err, w1)
      else if Api.is401 err && negb (_retry c) then
        match Api.instance_request net Api.refreshRequest w1 with
        | (Fulfilled _, w2) => Api.instance_request net (Api.mark_retry c) w2
        | (Rejected refreshError, w2) =>
            (console_log "Refresh failed, user is no longer authenticated" ;;
             dispatchEvent Api.AUTH_LOGOUT ;;
             throw refreshError) w2
        end
      else (Rejected err, w1)
  end.
Proof.
  funelim (Api.instance_request net c w); rewrite ?Heq0, ?Heq; try rewrite Hauth;
    try rewrite Hfirst; try rewrite Heq; reflexivity.
Qed.

(** A call with no budget left goes through the interceptor unchanged:
    authentication endpoints and replays are never retried. *)
Lemma instance_request_spent (c : RequestConfig) (w : World) :
  Api.retry_budget c = 0 -> Api.instance_request net c w = Api.transport net c w.
Proof.
  intros Hb. rewrite instance_request_body.
  destruct (Api.transport net c w) as [[r | err] w1]; [reflexivity |].
  unfold Api.retry_budget in Hb.
  destruct (Api.isAuthEndpoint (url c)); [reflexivity |].
  destruct (_retry c); [| discriminate Hb].
  now rewrite andb_false_r.
Qed.

(** The whole life of one call, with the two nested calls spelled out. *)
Lemma instance_request_unrolled (c : RequestConfig) (w : World) :
  Api.instance_request net c w =
  match Api.transport net c w with
  | (Fulfilled r, w1) => (Fulfilled r, w1)
  | (Rejected err, w1) =>
      if Api.isAuthEndpoint (url c) then (Rejected err, w1)
      else if Api.is401 err && negb (_retry c) then
        match Api.transport net Api.refreshRequest w1 with
        | (Fulfilled _, w2) => Api.transport net (Api.mark_retry c) w2
        | (Rejected refreshError, w2) =>
            (console_log "Refresh failed, user is no longer authenticated" ;;
             dispatchEvent Api.AUTH_LOGOUT ;;
             throw refreshError) w2
        end
      else (Rejected err, w1)
  end.
Proof.
  rewrite instance_request_body.
  destruct (Api.transport net c w) as [[r | err] w1]; [reflexivity |].
  destruct (Api.isAuthEndpoint (url c)); [reflexivity |].
  destruct (Api.is401 err && negb (_retry c)); [| reflexivity].
  rewrite (instance_request_spent Api.refreshRequest w1 retry_budget_refresh).
  destruct (Api.transport net Api.refreshRequest w1) as [[r | e] w2]; [| reflexivity].
  apply instance_request_spent, retry_budget_marked.
Qed.

(** A call to an authentication endpoint is one request, and its outcome
    is the outcome of that request. *)
Lemma auth_endpoint_once (c : RequestConfig) (w : World) :
  Api.isAuthEndpoint (url c) = true ->
  Api.instance_request net c w = Api.transport net c w.
Proof.
  intros H. apply instance_request_spent.
  unfold Api.retry_budget. now rewrite H.
Qed.

End Interceptor.

(** *** The HTTP client touches neither the store nor the title *)

Section Frame.

Variable net : Network.

Lemma transport_framed (c : RequestConfig) : framed (Api.transport net c).
Proof.
  intros f t w. unfold Api.transport, update; simpl.
  destruct (net (length (sent w)) c); reflexivity.
Qed.

Lemma instance_request_framed (c : RequestConfig) : framed (Api.instance_request net c).
Proof.
  intros f t w. rewrite !instance_request_unrolled.
  rewrite (transport_framed c f t w).
  destruct (Api.transport net c w) as [[r | err] w1]; simpl; [reflexivity |].
  destruct (Api.isAuthEndpoint (url c)); [reflexivity |].
  destruct (Api.is401 err && negb (_retry c)); [| reflexivity].
  rewrite (transport_framed Api.refreshRequest f t w1).
  destruct (Api.transport net Api.refreshRequest w1) as [[r | e] w2]; simpl.
  - rewrite (transport_framed (Api.mark_retry c) f t w2).
    destruct (Api.transport net (Api.mark_retry c) w2); reflexivity.
  - reflexivity.
Qed.

Lemma getCurrentUser_framed : framed (Api.getCurrentUser net).
Proof.
  intros f t w. unfold Api.getCurrentUser, try_catch, bind.
  rewrite (instance_request_framed (Api.get "/auth/me") f t w).
  destruct (Api.instance_request net (Api.get "/auth/me") w) as [[r | err] w1]; simpl.
  - destruct (payload (body r)); reflexivity.
  - reflexivity.
Qed.

(** The store after a call of the client is the store before it. *)
Lemma transport_store (c : RequestConfig) (w : World) :
  store (snd (Api.transport net c w)) = store w.
Proof. unfold Api.transport. destruct (net (length (sent w)) c); reflexivity. Qed.

Lemma instance_request_store (c : RequestConfig) (w : World) :
  store (snd (Api.instance_request net c w)) = store w.
Proof.
  rewrite instance_request_unrolled.
  pose proof (transport_store c w) as H0.
  destruct (Api.transport net c w) as [[r | err] w1]; simpl in *; [exact H0 |].
  destruct (Api.isAuthEndpoint (url c)); [exact H0 |].
  destruct (Api.is401 err && negb (_retry c)); [| exact H0].
  pose proof (transport_store Api.refreshRequest w1) as H1.
  destruct (Api.transport net Api.refreshRequest w1) as [[r | e] w2]; simpl in *.
  - rewrite transport_store. congruence.
  - congruence.
Qed.

Lemma getCurrentUser_store (w : World) :
  store (snd (Api.getCurrentUser net w)) = store w.
Proof.
  unfold Api.getCurrentUser, try_catch, bind.
  pose proof (instance_request_store (Api.get "/auth/me") w) as H0.
  destruct (Api.instance_request net (Api.get "/auth/me") w) as [[r | err] w1]; simpl in *.
  - destruct (payload (body r)); exact H0.
  - exact H0.
Qed.

End Frame.

(** *** The credential-refresh interceptor *)

(** The run of a first 401 on a call that is not an authentication
    endpoint, in closed form. *)
Lemma instance_request_on_401
    (net : Network) (c : RequestConfig) (w : World)
    (m : string) (reply : AxiosResponse) :
  Api.isAuthEndpoint (url c) = false ->
  _retry c = false ->
  net (length (sent w)) c = NetReject m (Some reply) ->
  status reply = 401%Z ->
  Api.instance_request net c w =
  match net (S (length (sent w))) Api.refreshRequest with
  | NetResolve _ =>
      (match net (S (S (length (sent w)))) (Api.mark_retry c) with
       | NetResolve r => Fulfilled r
       | NetReject m' r' => Rejected (AxiosError m' (Api.mark_retry c) r')
       end,
       mkWorld (store w) (sent w ++ [c; Api.refreshRequest; Api.mark_retry c])
               (events w) (console w) (title w))
  | NetReject m' r' =>
      (Rejected (AxiosError m' Api.refreshRequest r'),
       mkWorld (store w) (sent w ++ [c; Api.refreshRequest])
               (events w ++ [Api.AUTH_LOGOUT])
               (console w ++ ["Refresh failed, user is no longer authenticated"%string])
               (title w))
  end.
Proof.
  intros Hauth Hretry Hnet H401.
  rewrite instance_request_unrolled.
  unfold Api.transport. rewrite Hnet, Hauth.
  unfold Api.is401, err_status; simpl. rewrite H401, Hretry; simpl.
  rewrite !length_app; simpl. rewrite !Nat.add_1_r.
  destruct (net (S (length (sent w))) Api.refreshRequest) as [r | m' r']; simpl.
  - rewrite !length_app; simpl. rewrite !Nat.add_1_r.
    rewrite <- !app_assoc; simpl.
    destruct (net (S (S (length (sent w)))) (Api.mark_retry c)); reflexivity.
  - run_async. rewrite <- !app_assoc; reflexivity.
Qed.

(** C1, as the code has it.  A call to a URL that is not an authentication
    endpoint, not yet marked as retried, and answered 401, leaves the store
    alone and makes exactly one refresh call.  When the refresh succeeds,
    the call is replayed exactly once (marked), no event is dispatched and
    the caller gets the outcome of the replay, success or failure.  When
    the refresh fails, there is no replay, the session-ended event is
    dispatched once, and the caller is rejected with the failure of the
    refresh call. *)
Theorem interceptor_refresh_then_replay
    (net : Network) (c : RequestConfig) (w : World)
    (m : string) (reply : AxiosResponse) :
  Api.isAuthEndpoint (url c) = false ->
  _retry c = false ->
  net (length (sent w)) c = NetReject m (Some reply) ->
  status reply = 401%Z ->
  store (snd (Api.instance_request net c w)) = store w /\
  match net (S (length (sent w))) Api.refreshRequest with
  | NetResolve _ =>
      sent (snd (Api.instance_request net c w))
        = sent w ++ [c; Api.refreshRequest; Api.mark_retry c] /\
      events (snd (Api.instance_request net c w)) = events w /\
      fst (Api.instance_request net c w)
        = match net (S (S (length (sent w)))) (Api.mark_retry c) with
          | NetResolve r => Fulfilled r
          | NetReject m' r' => Rejected (AxiosError m' (Api.mark_retry c) r')
          end
  | NetReject m' r' =>
      sent (snd (Api.instance_request net c w)) = sent w ++ [c; Api.refreshRequest] /\
      events (snd (Api.instance_request net c w)) = events w ++ [Api.AUTH_LOGOUT] /\
      fst (Api.instance_request net c w) = Rejected (AxiosError m' Api.refreshRequest r')
  end.
Proof.
  intros Hauth Hretry Hnet H401.
  rewrite (instance_request_on_401 net c w m reply Hauth Hretry Hnet H401).
  destruct (net (S (length (sent w))) Api.refreshRequest) as [r | m' r']; simpl.
  - destruct (net (S (S (length (sent w)))) (Api.mark_retry c)); simpl; auto.
  - auto.
Qed.

Lemma interceptor_refresh_then_replay_witness :
  sent (snd (Api.instance_request net_refresh_down (Api.get "/images") initialWorld))
    = [Api.get "/images"; Api.refreshRequest] /\
  events (snd (Api.instance_request net_refresh_down (Api.get "/images") initialWorld))
    = [Api.AUTH_LOGOUT] /\
  fst (Api.instance_request net_refresh_down (Api.get "/images") initialWorld)
    = Rejected (AxiosError "Network Error" Api.refreshRequest None).
Proof.
  exact (proj2 (interceptor_refresh_then_replay net_refresh_down (Api.get "/images")
                  initialWorld "Request failed with status code 401" expired
                  eq_refl eq_refl eq_refl eq_refl)).
Defined.

(** C1, as the claim words it, fails: with the original call answered 401
    and the refresh call failing, the caller is not rejected with the
    failure of the original call but with that of the refresh call. *)
Lemma interceptor_rejects_with_refresh_error :
  Api.isAuthEndpoint (url (Api.get "/images")) = false /\
  fst (Api.transport net_refresh_down (Api.get "/images") initialWorld)
    = Rejected (AxiosError "Request failed with status code 401"
                  (Api.get "/images") (Some expired)) /\
  status expired = 401%Z /\
  fst (Api.instance_request net_refresh_down (Api.get "/images") initialWorld)
    <> Rejected (AxiosError "Request failed with status code 401"
                   (Api.get "/images") (Some expired)) /\
  fst (Api.instance_request net_refresh_down (Api.get "/images") initialWorld)
    = Rejected (AxiosError "Network Error" Api.refreshRequest None).
Proof.
  repeat split; try reflexivity.
  vm_compute. discriminate.
Qed.

(** *** The store operations in closed form *)

Lemma store_logout_run (net : Network) (w : World) :
  AuthStore.logout net w =
  let cleared := mkAuthState JNull false None (isInitialized (store w)) false in
  match net (length (sent w)) logoutRequest with
  | NetResolve _ =>
      (Fulfilled tt,
       mkWorld cleared (sent w ++ [logoutRequest])
               (events w ++ [Api.AUTH_LOGOUT]) (console w) (title w))
  | NetReject m r =>
      (Rejected (AxiosError m logoutRequest r),
       mkWorld cleared (sent w ++ [logoutRequest])
               (events w ++ [Api.AUTH_LOGOUT; Api.AUTH_LOGOUT])
               (console w ++ ["Logout error:"%string]) (title w))
  end.
Proof.
  unfold AuthStore.logout, Api.logout. run_async.
  rewrite (auth_endpoint_once net (Api.post "/auth/logout" NoData) _ eq_refl).
  unfold Api.transport, logoutRequest; simpl.
  destruct (net (length (sent w)) (Api.post "/auth/logout" NoData)); simpl;
    rewrite <- ?app_assoc; reflexivity.
Qed.

Lemma store_login_run (net : Network) (credentials : Credentials) (w : World) :
  AuthStore.login net credentials w =
  let request := loginRequest credentials in
  match net (length (sent w)) request with
  | NetResolve r =>
      (Fulfilled (Api.data_of r),
       mkWorld (mkAuthState (Api.data_of r) false None (isInitialized (store w)) true)
               (sent w ++ [request]) (events w) (console w) (title w))
  | NetReject m r =>
      (Rejected (AxiosError m request r),
       mkWorld (mkAuthState (user (store w)) false
                  (Some (AuthStore.errorMsg (AxiosError m request r) "Login failed"))
                  (isInitialized (store w)) (hasCredentials (store w)))
               (sent w ++ [request]) (events w) (console w) (title w))
  end.
Proof.
  unfold AuthStore.login, Api.login. run_async.
  rewrite (auth_endpoint_once net (Api.post "/auth/login" (CredentialsData credentials)) _ eq_refl).
  unfold Api.transport, loginRequest; simpl.
  destruct (net (length (sent w)) (Api.post "/auth/login" (CredentialsData credentials)));
    reflexivity.
Qed.

Lemma store_signup_run (net : Network) (credentials : Credentials) (w : World) :
  AuthStore.signup net credentials w =
  let request := signupRequest credentials in
  match net (length (sent w)) request with
  | NetResolve r =>
      (Fulfilled (Api.data_of r),
       mkWorld (mkAuthState (Api.data_of r) false None (isInitialized (store w)) true)
               (sent w ++ [request]) (events w) (console w) (title w))
  | NetReject m r =>
      (Rejected (AxiosError m request r),
       mkWorld (mkAuthState (user (store w)) false
                  (Some (AuthStore.errorMsg (AxiosError m request r) "Signup failed"))
                  (isInitialized (store w)) (hasCredentials (store w)))
               (sent w ++ [request]) (events w) (console w) (title w))
  end.
Proof.
  unfold AuthStore.signup, Api.signup. run_async.
  rewrite (auth_endpoint_once net (Api.post "/auth/signup" (CredentialsData credentials)) _ eq_refl).
  unfold Api.transport, signupRequest; simpl.
  destruct (net (length (sent w)) (Api.post "/auth/signup" (CredentialsData credentials)));
    reflexivity.
Qed.

(** [fetchCurrentUser] and [restoreAuthFromCookies] in terms of the one
    [getCurrentUser] call they make, run in the world they were called in. *)
Lemma store_fetchCurrentUser_run (net : Network) (w : World) :
  AuthStore.fetchCurrentUser net w =
  let after := snd (Api.getCurrentUser net w) in
  match fst (Api.getCurrentUser net w) with
  | Fulfilled u =>
      (Fulfilled (JUser u),
       mkWorld (mkAuthState (JUser u) false None true true)
               (sent after) (events after) (console after) (title after))
  | Rejected _ =>
      (Fulfilled JNull,
       mkWorld (mkAuthState JNull false None true false)
               (sent after) (events after) (console after) (title after))
  end.
Proof.
  unfold AuthStore.fetchCurrentUser. run_async.
  pose proof (getCurrentUser_framed net
    (fun s => mkAuthState (user s) true None (isInitialized s) (hasCredentials s))
    (fun t => t) w) as Hf.
  unfold update in Hf; simpl in Hf. rewrite Hf.
  destruct (Api.getCurrentUser net w) as [[u | e] w1]; reflexivity.
Qed.

Lemma store_restore_run (net : Network) (w : World) :
  AuthStore.restoreAuthFromCookies net w =
  let after := snd (Api.getCurrentUser net w) in
  match fst (Api.getCurrentUser net w) with
  | Fulfilled u =>
      (Fulfilled (JUser u),
       mkWorld (mkAuthState (JUser u) (isLoading (store w)) (error (store w)) true true)
               (sent after) (events after) (console after) (title after))
  | Rejected _ =>
      (Fulfilled JNull,
       mkWorld (mkAuthState JNull (isLoading (store w)) (error (store w)) true false)
               (sent after) (events after) (console after) (title after))
  end.
Proof.
  unfold AuthStore.restoreAuthFromCookies. run_async.
  pose proof (getCurrentUser_store net w) as Hs.
  destruct (Api.getCurrentUser net w) as [[u | e] w1]; simpl in *; rewrite Hs; reflexivity.
Qed.

(** *** Logout *)

(** C2.  Whatever the backend does with the logout request (a reply the
    adapter resolves with, an error reply, or none at all as on a
    timeout), once [logout] has settled [user] is [null] and
    [hasCredentials] is [false].  On a failure the caller is rejected with
    the very error of the logout request, the state it then sees is the
    cleared one, and the session-ended event has been dispatched (by the
    client and again by the store); on success the client dispatches it
    once. *)
Theorem logout_always_clears (net : Network) (w : World) :
  user (store (snd (AuthStore.logout net w))) = JNull /\
  hasCredentials (store (snd (AuthStore.logout net w))) = false /\
  match net (length (sent w)) logoutRequest with
  | NetResolve _ =>
      fst (AuthStore.logout net w) = Fulfilled tt /\
      events (snd (AuthStore.logout net w)) = events w ++ [Api.AUTH_LOGOUT]
  | NetReject m r =>
      fst (AuthStore.logout net w) = Rejected (AxiosError m logoutRequest r) /\
      events (snd (AuthStore.logout net w))
        = events w ++ [Api.AUTH_LOGOUT; Api.AUTH_LOGOUT]
  end.
Proof.
  rewrite store_logout_run.
  destruct (net (length (sent w)) logoutRequest); simpl; auto.
Qed.

(** *** Session restoration *)

(** C3.  [restoreAuthFromCookies] is always fulfilled, never rejected.
    When the identity fetch it makes succeeds with a record, [user] is that
    record, [hasCredentials] is [true] and the record is the result; when
    the fetch fails in any way, [user] is [null], [hasCredentials] is
    [false] and the result is [null].  In both cases [isInitialized] is
    [true] afterwards. *)
Theorem restore_is_silent (net : Network) (w : World) :
  isInitialized (store (snd (AuthStore.restoreAuthFromCookies net w))) = true /\
  match fst (Api.getCurrentUser net w) with
  | Fulfilled u =>
      fst (AuthStore.restoreAuthFromCookies net w) = Fulfilled (JUser u) /\
      user (store (snd (AuthStore.restoreAuthFromCookies net w))) = JUser u /\
      hasCredentials (store (snd (AuthStore.restoreAuthFromCookies net w))) = true
  | Rejected _ =>
      fst (AuthStore.restoreAuthFromCookies net w) = Fulfilled JNull /\
      user (store (snd (AuthStore.restoreAuthFromCookies net w))) = JNull /\
      hasCredentials (store (snd (AuthStore.restoreAuthFromCookies net w))) = false
  end.
Proof.
  rewrite store_restore_run.
  destruct (fst (Api.getCurrentUser net w)); simpl; auto.
Qed.

(** *** Login and signup *)

(** C8.  When the login request is resolved, [login] returns the identity
    record of the reply ([response.data.data]), [user] holds that same
    value and [hasCredentials] is [true].  When the request is rejected,
    the caller is rejected with the same error and [error] holds the
    [detail] of the error reply when there is a non-empty one, else the
    message of the error when it is non-empty, else ["Login failed"]
    (the [||] chain of line 31: an empty string counts as absent). *)
Theorem login_outcomes (net : Network) (credentials : Credentials) (w : World) :
  match net (length (sent w)) (loginRequest credentials) with
  | NetResolve r =>
      let record :=
        match payload (body r) with
        | Some u => JUser u
        | None => JUndefined
        end in
      fst (AuthStore.login net credentials w) = Fulfilled record /\
      user (store (snd (AuthStore.login net credentials w))) = record /\
      hasCredentials (store (snd (AuthStore.login net credentials w))) = true
  | NetReject m r =>
      let shown :=
        match r with
        | Some (mkResponse _ (mkApiResponse _ _ (Some (String a d)))) => String a d
        | _ =>
            match m with
            | String a m' => String a m'
            | EmptyString => "Login failed"%string
            end
        end in
      fst (AuthStore.login net credentials w)
        = Rejected (AxiosError m (loginRequest credentials) r) /\
      error (store (snd (AuthStore.login net credentials w))) = Some shown
  end.
Proof.
  rewrite store_login_run; simpl.
  destruct (net (length (sent w)) (loginRequest credentials)) as [r | m r]; simpl.
  - auto.
  - split; [reflexivity |].
    unfold AuthStore.errorMsg, or_else, err_detail; simpl.
    destruct r as [[st [p ms [[| a d] |]]] |]; simpl; destruct m; reflexivity.
Qed.

(** C10.  A [login] or a [signup] that is rejected leaves [user],
    [hasCredentials] and [isInitialized] as they were before the call; of
    the five fields of the store only [error] (set to a message) and
    [isLoading] (back to [false]) are written. *)
Theorem failed_login_signup_keep_session
    (net : Network) (credentials : Credentials) (w : World)
    (e : JsError) (w1 : World) :
  AuthStore.login net credentials w = (Rejected e, w1) \/
  AuthStore.signup net credentials w = (Rejected e, w1) ->
  user (store w1) = user (store w) /\
  hasCredentials (store w1) = hasCredentials (store w) /\
  isInitialized (store w1) = isInitialized (store w) /\
  isLoading (store w1) = false /\
  error (store w1) <> None.
Proof.
  rewrite store_login_run, store_signup_run; simpl.
  intros [H | H].
  - destruct (net (length (sent w)) (loginRequest credentials));
      inversion H; subst; simpl; repeat split; discriminate.
  - destruct (net (length (sent w)) (signupRequest credentials));
      inversion H; subst; simpl; repeat split; discriminate.
Qed.

Lemma failed_login_signup_keep_session_witness :
  user (store (snd (AuthStore.login net_down someone initialWorld))) = JNull /\
  hasCredentials (store (snd (AuthStore.login net_down someone initialWorld))) = false /\
  isInitialized (store (snd (AuthStore.login net_down someone initialWorld))) = false /\
  isLoading (store (snd (AuthStore.login net_down someone initialWorld))) = false /\
  error (store (snd (AuthStore.login net_down someone initialWorld))) <> None.
Proof.
  exact (failed_login_signup_keep_session net_down someone initialWorld
           (AxiosError "Network Error" (loginRequest someone) None)
           (snd (AuthStore.login net_down someone initialWorld))
           (or_introl eq_refl)).
Defined.

(** *** Invariants over sequences of store operations *)

Lemma run_ops_app (net : Network) (ops more : list AuthStore.StoreOp) (w : World) :
  AuthStore.run_ops net (ops ++ more) w
  = AuthStore.run_ops net more (AuthStore.run_ops net ops w).
Proof. unfold AuthStore.run_ops. apply fold_left_app. Qed.

(** What one operation does to [isLoading]: six of them end with it
    [false] from any state, [restoreAuthFromCookies] and [clearError]
    never write it. *)
Lemma isLoading_after_op (net : Network) (op : AuthStore.StoreOp) (w : World) :
  isLoading (store (AuthStore.run_op net op w)) =
  match op with
  | AuthStore.OpRestore | AuthStore.OpClearError => isLoading (store w)
  | _ => false
  end.
Proof.
  destruct op; simpl.
  - rewrite store_login_run; simpl.
    destruct (net (length (sent w)) (loginRequest credentials)); reflexivity.
  - rewrite store_signup_run; simpl.
    destruct (net (length (sent w)) (signupRequest credentials)); reflexivity.
  - rewrite store_logout_run; simpl.
    destruct (net (length (sent w)) logoutRequest); reflexivity.
  - rewrite store_fetchCurrentUser_run; simpl.
    destruct (fst (Api.getCurrentUser net w)); reflexivity.
  - rewrite store_restore_run; simpl.
    destruct (fst (Api.getCurrentUser net w)); reflexivity.
  - unfold AuthStore.requestPasswordReset. run_async.
    match goal with |- context [Api.requestPasswordReset net ?e ?x] =>
      destruct (Api.requestPasswordReset net e x) as [[? | ?] ?] end; reflexivity.
  - unfold AuthStore.updatePassword. run_async.
    match goal with |- context [Api.updatePassword net ?t ?p ?x] =>
      destruct (Api.updatePassword net t p x) as [[? | ?] ?] end; reflexivity.
  - reflexivity.
Qed.

(** What one operation does to [isInitialized]. *)
Lemma isInitialized_after_op (net : Network) (op : AuthStore.StoreOp) (w : World) :
  isInitialized (store (AuthStore.run_op net op w))
  = isInitialized (store w) || initializes op.
Proof.
  destruct op; simpl; rewrite ?orb_false_r, ?orb_true_r.
  - rewrite store_login_run; simpl.
    destruct (net (length (sent w)) (loginRequest credentials)); reflexivity.
  - rewrite store_signup_run; simpl.
    destruct (net (length (sent w)) (signupRequest credentials)); reflexivity.
  - rewrite store_logout_run; simpl.
    destruct (net (length (sent w)) logoutRequest); reflexivity.
  - rewrite store_fetchCurrentUser_run; simpl.
    destruct (fst (Api.getCurrentUser net w)); reflexivity.
  - rewrite store_restore_run; simpl.
    destruct (fst (Api.getCurrentUser net w)); reflexivity.
  - unfold AuthStore.requestPasswordReset, Api.requestPasswordReset. run_async.
    match goal with |- context [Api.instance_request net ?c ?x] =>
      pose proof (instance_request_store net c x) as Hs;
      destruct (Api.instance_request net c x) as [[? | ?] ?] end;
      simpl in *; rewrite Hs; reflexivity.
  - unfold AuthStore.updatePassword, Api.updatePassword. run_async.
    match goal with |- context [Api.instance_request net ?c ?x] =>
      pose proof (instance_request_store net c x) as Hs;
      destruct (Api.instance_request net c x) as [[? | ?] ?] end;
      simpl in *; rewrite Hs; reflexivity.
  - reflexivity.
Qed.

Lemma isInitialized_after_ops (net : Network) (ops : list AuthStore.StoreOp) (w : World) :
  isInitialized (store (AuthStore.run_ops net ops w))
  = isInitialized (store w) || existsb initializes ops.
Proof.
  revert w. induction ops as [| op ops IH]; intros w; simpl.
  - now rewrite orb_false_r.
  - change (AuthStore.run_ops net (op :: ops) w)
      with (AuthStore.run_ops net ops (AuthStore.run_op net op w)).
    rewrite IH, isInitialized_after_op. now rewrite orb_assoc.
Qed.

Lemma isLoading_after_ops (net : Network) (ops : list AuthStore.StoreOp) (w : World) :
  isLoading (store w) = false ->
  isLoading (store (AuthStore.run_ops net ops w)) = false.
Proof.
  revert w. induction ops as [| op ops IH]; intros w Hw; simpl; [exact Hw |].
  change (AuthStore.run_ops net (op :: ops) w)
    with (AuthStore.run_ops net ops (AuthStore.run_op net op w)).
  apply IH. rewrite isLoading_after_op. destruct op; auto.
Qed.

(** C9, as the code has it.  From any state and for any backend, each of
    [login], [signup], [logout], [fetchCurrentUser], [requestPasswordReset]
    and [updatePassword] settles, fulfilled or rejected, with [isLoading]
    equal to [false]; [restoreAuthFromCookies] and [clearError] never write
    [isLoading] and settle with it as they found it. *)
Theorem isLoading_after_every_operation
    (net : Network) (op : AuthStore.StoreOp) (w : World) :
  isLoading (store (AuthStore.run_op net op w)) =
  match op with
  | AuthStore.OpRestore | AuthStore.OpClearError => isLoading (store w)
  | AuthStore.OpLogin _ | AuthStore.OpSignup _ | AuthStore.OpLogout
  | AuthStore.OpFetchCurrentUser | AuthStore.OpRequestPasswordReset _
  | AuthStore.OpUpdatePassword _ => false
  end.
Proof.
  destruct op; simpl.
  - rewrite store_login_run; simpl.
    destruct (net (length (sent w)) (loginRequest credentials)); reflexivity.
  - rewrite store_signup_run; simpl.
    destruct (net (length (sent w)) (signupRequest credentials)); reflexivity.
  - rewrite store_logout_run; simpl.
    destruct (net (length (sent w)) logoutRequest); reflexivity.
  - rewrite store_fetchCurrentUser_run; simpl.
    destruct (fst (Api.getCurrentUser net w)); reflexivity.
  - rewrite store_restore_run; simpl.
    destruct (fst (Api.getCurrentUser net w)); reflexivity.
  - unfold AuthStore.requestPasswordReset. run_async.
    match goal with |- context [Api.requestPasswordReset net ?e ?x] =>
      destruct (Api.requestPasswordReset net e x) as [[? | ?] ?] end; reflexivity.
  - unfold AuthStore.updatePassword. run_async.
    match goal with |- context [Api.updatePassword net ?t ?p ?x] =>
      destruct (Api.updatePassword net t p x) as [[? | ?] ?] end; reflexivity.
  - reflexivity.
Qed.

(** C9, as the claim words it, fails: called while [isLoading] is [true],
    [clearError] and [restoreAuthFromCookies] (whether its identity fetch
    fails or succeeds) settle with [isLoading] still [true]. *)
Lemma clearError_and_restore_keep_isLoading :
  isLoading (store loading) = true /\
  isLoading (store (snd (AuthStore.clearError loading))) = true /\
  fst (AuthStore.restoreAuthFromCookies net_down loading) = Fulfilled JNull /\
  isLoading (store (snd (AuthStore.restoreAuthFromCookies net_down loading))) = true /\
  fst (AuthStore.restoreAuthFromCookies net_alice loading) = Fulfilled (JUser alice) /\
  isLoading (store (snd (AuthStore.restoreAuthFromCookies net_alice loading))) = true.
Proof. vm_compute. repeat split. Qed.

(** In every run of the store, that is after any sequence of public
    operations started in the initial state, each public operation settles
    with [isLoading] equal to [false]: the two operations that never write
    the flag are then always called with it at [false]. *)
Theorem isLoading_false_after_every_operation
    (net : Network) (history : list AuthStore.StoreOp) (op : AuthStore.StoreOp) :
  isLoading
    (store (AuthStore.run_op net op (AuthStore.run_ops net history initialWorld)))
  = false.
Proof.
  rewrite isLoading_after_op.
  pose proof (isLoading_after_ops net history initialWorld eq_refl) as H.
  destruct op; auto.
Qed.

(** C7, as the code has it.  Started in the initial state, where
    [isInitialized] is [false], the flag after a sequence of operations is
    [true] exactly when the sequence contains a [restoreAuthFromCookies]
    or a [fetchCurrentUser]: it turns [true] when the first of these
    completes, whatever its outcome, and whatever follows leaves it
    [true]. *)
Theorem isInitialized_set_by_first_restore_or_fetch
    (net : Network) (ops more : list AuthStore.StoreOp) :
  isInitialized (store (AuthStore.run_ops net ops initialWorld))
    = existsb initializes ops /\
  isInitialized (store (AuthStore.run_ops net (ops ++ more) initialWorld))
    = isInitialized (store (AuthStore.run_ops net ops initialWorld))
      || existsb initializes more.
Proof.
  split.
  - now rewrite isInitialized_after_ops.
  - rewrite run_ops_app. apply isInitialized_after_ops.
Qed.

(** C7, as the claim words it, fails: after the one-operation sequence
    [fetchCurrentUser] the flag has turned [true] although no restoration
    attempt has been made; a restoration that comes later finds it set. *)
Lemma isInitialized_set_before_first_restore :
  isInitialized (store initialWorld) = false /\
  ~ In AuthStore.OpRestore [AuthStore.OpFetchCurrentUser] /\
  isInitialized
    (store (AuthStore.run_ops net_down [AuthStore.OpFetchCurrentUser] initialWorld))
  = true.
Proof.
  split; [reflexivity |]. split; [| reflexivity].
  intros [H | []]. discriminate H.
Qed.

(** *** The navigation guard *)

(** The handle the guard awaits is never rejected. *)
Lemma authPromise_fulfilled (net : Network) (w0 : World) :
  exists v, Main.authPromise net w0 = Fulfilled v.
Proof.
  unfold Main.authPromise. rewrite store_restore_run; simpl.
  destruct (fst (Api.getCurrentUser net w0)); simpl; eauto.
Qed.

(** In the route table the login route does not require authentication. *)
Lemma auth_routes_are_not_login (r : RouteRecord) :
  In r routes -> requiresAuth (meta r) = Some true ->
  String.eqb (name r) "login" = false.
Proof.
  unfold routes. simpl.
  intros [H | [H | [H | [H | [H | [H | []]]]]]] Hreq; subst r;
    simpl in *; try discriminate; reflexivity.
Qed.

(** The guard on a destination that requires authentication, once the
    login rule has been passed. *)
Lemma beforeEach_auth_required
    (net : Network) (w0 : World) (to : RouteLocation) (w : World) :
  String.eqb (to_name to) "login" = false ->
  requiresAuth (to_meta to) = Some true ->
  Main.beforeEach net w0 to w =
  if negb (hasCredentials (store w)) then (Fulfilled (Main.toLogin to), titled to w)
  else if truthy (user (store w)) then (Fulfilled Next, titled to w)
  else
    let after := snd (Api.getCurrentUser net w) in
    match fst (Api.getCurrentUser net w) with
    | Fulfilled u =>
        (Fulfilled Next,
         mkWorld (mkAuthState (JUser u) false None true true)
                 (sent after) (events after) (console after) (title (titled to w)))
    | Rejected _ =>
        (Fulfilled (Main.toLogin to),
         mkWorld (mkAuthState JNull false None true false)
                 (sent after) (events after) (console after) (title (titled to w)))
    end.
Proof.
  intros Hname Hreq.
  destruct (authPromise_fulfilled net w0) as [v Hv].
  unfold Main.beforeEach, Main.await, requires_auth. rewrite Hv, Hname, Hreq.
  run_async. fold (titled to w).
  destruct (hasCredentials (store w)); simpl; [| reflexivity].
  destruct (truthy (user (store w))); simpl; [reflexivity |].
  rewrite store_fetchCurrentUser_run; simpl.
  pose proof (getCurrentUser_framed net (fun s => s)
    (fun _ => (or_else (meta_title (to_meta to)) "App" ++ " - AI Image Gallery")%string) w) as Hf.
  unfold update in Hf; simpl in Hf.
  assert (Hw : titled to w =
    mkWorld (store w) (sent w) (events w) (console w)
      (or_else (meta_title (to_meta to)) "App" ++ " - AI Image Gallery")%string)
    by reflexivity.
  rewrite Hw, Hf; simpl.
  destruct (fst (Api.getCurrentUser net w)); reflexivity.
Qed.

(** C6.  A navigation to the destination named [login] while [user] holds
    an identity record is redirected to [home] (with [replace]), without
    any request and without touching the store.  The rule comes first:
    the decision is the same whatever the destination's [requiresAuth]
    and whatever [hasCredentials]. *)
Theorem login_with_user_goes_home
    (net : Network) (w0 : World) (to : RouteLocation) (w : World) (u : UserOut) :
  to_name to = "login"%string ->
  user (store w) = JUser u ->
  Main.beforeEach net w0 to w = (Fulfilled (NextTo "home" [] true), titled to w).
Proof.
  intros Hname Huser.
  destruct (authPromise_fulfilled net w0) as [v Hv].
  unfold Main.beforeEach, Main.await. rewrite Hv, Hname.
  run_async. now rewrite Huser.
Qed.

Lemma login_with_user_goes_home_witness :
  Main.beforeEach net_down initialWorld
    (mkLocation "login" "/login" (mkMeta (Some true) (Some "Login"))) signed_in
  = (Fulfilled (NextTo "home" [] true),
     titled (mkLocation "login" "/login" (mkMeta (Some true) (Some "Login"))) signed_in).
Proof.
  exact (login_with_user_goes_home net_down initialWorld
           (mkLocation "login" "/login" (mkMeta (Some true) (Some "Login")))
           signed_in alice eq_refl eq_refl).
Defined.

(** C4.  A navigation to a destination of the route table whose meta
    requires authentication, made while [hasCredentials] is [false], is
    redirected to [login] with the query [redirect] equal to the full path
    that was asked for; no request is made and the store is not touched. *)
Theorem no_credentials_redirects_to_login
    (net : Network) (w0 : World) (r : RouteRecord) (requested : string) (w : World) :
  In r routes ->
  requiresAuth (meta r) = Some true ->
  hasCredentials (store w) = false ->
  Main.beforeEach net w0 (resolve r requested) w
  = (Fulfilled (NextTo "login" [("redirect"%string, requested)] true),
     titled (resolve r requested) w).
Proof.
  intros Hin Hreq Hcred.
  rewrite beforeEach_auth_required.
  - now rewrite Hcred.
  - now apply auth_routes_are_not_login.
  - exact Hreq.
Qed.

Lemma home_route_in_table : In home_route routes.
Proof. unfold routes, home_route. simpl. tauto. Qed.

Lemma no_credentials_redirects_to_login_witness :
  Main.beforeEach net_down initialWorld (resolve home_route "/") initialWorld
  = (Fulfilled (NextTo "login" [("redirect"%string, "/"%string)] true),
     titled (resolve home_route "/") initialWorld).
Proof.
  exact (no_credentials_redirects_to_login net_down initialWorld home_route "/"
           initialWorld home_route_in_table eq_refl eq_refl).
Defined.

Lemma getCurrentUser_trace (net : Network) (w : World) :
  one_identity_fetch (sent w) (sent (snd (Api.getCurrentUser net w))).
Proof.
  unfold one_identity_fetch, Api.getCurrentUser, try_catch, bind.
  rewrite instance_request_unrolled. fold meRequest.
  replace (Api.isAuthEndpoint (url meRequest)) with false by reflexivity.
  unfold Api.transport; simpl.
  destruct (net (length (sent w)) meRequest) as [r | m r]; simpl.
  - left. destruct (payload (body r)); reflexivity.
  - destruct (Api.is401 (AxiosError m meRequest r)); simpl; [| left; reflexivity].
    destruct (net (length (sent w ++ [meRequest])) Api.refreshRequest) as [r1 | m1 r1]; simpl.
    + right; right.
      destruct (net (length ((sent w ++ [meRequest]) ++ [Api.refreshRequest]))
                    (Api.mark_retry meRequest)) as [r2 | m2 r2]; simpl.
      * destruct (payload (body r2)); simpl; now rewrite <- !app_assoc.
      * now rewrite <- !app_assoc.
    + right; left. now rewrite <- !app_assoc.
Qed.

(** C5.  A navigation to a destination of the route table whose meta
    requires authentication, made while [hasCredentials] is [true]:

    - when [user] holds an identity record, the guard lets the navigation
      through at once, without any request and without touching the store;
    - when [user] is absent, the requests the guard makes are those of
      exactly one identity fetch; when that fetch succeeds the navigation
      is let through (and the store holds the record); when it fails,
      [user] is [null], [hasCredentials] is [false] and the navigation is
      redirected to [login] with the query [redirect] equal to the full
      path that was asked for. *)
Theorem credentials_fetch_identity_on_demand
    (net : Network) (w0 : World) (r : RouteRecord) (requested : string) (w : World) :
  In r routes ->
  requiresAuth (meta r) = Some true ->
  hasCredentials (store w) = true ->
  match user (store w) with
  | JUser _ =>
      Main.beforeEach net w0 (resolve r requested) w
      = (Fulfilled Next, titled (resolve r requested) w)
  | JNull | JUndefined =>
      one_identity_fetch
        (sent w) (sent (snd (Main.beforeEach net w0 (resolve r requested) w))) /\
      match fst (Api.getCurrentUser net w) with
      | Fulfilled u =>
          fst (Main.beforeEach net w0 (resolve r requested) w) = Fulfilled Next /\
          store (snd (Main.beforeEach net w0 (resolve r requested) w))
            = mkAuthState (JUser u) false None true true
      | Rejected _ =>
          fst (Main.beforeEach net w0 (resolve r requested) w)
            = Fulfilled (NextTo "login" [("redirect"%string, requested)] true) /\
          user (store (snd (Main.beforeEach net w0 (resolve r requested) w))) = JNull /\
          hasCredentials (store (snd (Main.beforeEach net w0 (resolve r requested) w)))
            = false
      end
  end.
Proof.
  intros Hin Hreq Hcred.
  rewrite (beforeEach_auth_required net w0 (resolve r requested) w
             (auth_routes_are_not_login r Hin Hreq) Hreq).
  rewrite Hcred; simpl.
  pose proof (getCurrentUser_trace net w) as Htrace.
  destruct (user (store w)); simpl; [| | reflexivity];
    (split; [destruct (fst (Api.getCurrentUser net w)); exact Htrace |]);
    destruct (fst (Api.getCurrentUser net w)); simpl; auto.
Qed.

Lemma credentials_fetch_identity_on_demand_witness :
  one_identity_fetch
    (sent reloaded)
    (sent (snd (Main.beforeEach net_down initialWorld (resolve home_route "/") reloaded))) /\
  fst (Main.beforeEach net_down initialWorld (resolve home_route "/") reloaded)
    = Fulfilled (NextTo "login" [("redirect"%string, "/"%string)] true) /\
  user (store (snd (Main.beforeEach net_down initialWorld (resolve home_route "/") reloaded)))
    = JNull /\
  hasCredentials
    (store (snd (Main.beforeEach net_down initialWorld (resolve home_route "/") reloaded)))
    = false.
Proof.
  exact (credentials_fetch_identity_on_demand net_down initialWorld home_route "/"
           reloaded home_route_in_table eq_refl eq_refl).
Defined.

(** *** Scenarios *)

(** Fresh load without a session: the restoration fails silently and the
    first navigation to [/] is redirected to [/login?redirect=/]. *)
Example fresh_load_redirects_to_login :
  Main.authPromise net_down initialWorld = Fulfilled JNull /\
  store (Main.booted net_down initialWorld) = mkAuthState JNull false None true false /\
  fst (Main.beforeEach net_down initialWorld (resolve home_route "/")
         (Main.booted net_down initialWorld))
  = Fulfilled (NextTo "login" [("redirect"%string, "/"%string)] true).
Proof. vm_compute. auto. Qed.

(** A successful login, then a navigation to [/]: it is let through and
    the only request ever made after the bootstrap is the login itself. *)
Example login_then_home :
  let w1 := Main.booted net_down initialWorld in
  let w2 := snd (AuthStore.login net_alice someone w1) in
  fst (AuthStore.login net_alice someone w1) = Fulfilled (JUser alice) /\
  user (store w2) = JUser alice /\
  hasCredentials (store w2) = true /\
  fst (Main.beforeEach net_alice initialWorld (resolve home_route "/") w2) = Fulfilled Next /\
  sent (snd (Main.beforeEach net_alice initialWorld (resolve home_route "/") w2)) = sent w2.
Proof. vm_compute. auto. Qed.

(** An expired credential on a call that is not an authentication
    endpoint: one refresh, one replay, the caller sees the reply of the
    replay and no event is dispatched. *)
Example refresh_then_replay_succeeds :
  Api.instance_request net_expired_once (Api.get "/images") initialWorld
  = (Fulfilled (mkResponse 200 (mkApiResponse (Some alice) None None)),
     mkWorld initialAuthState
       [Api.get "/images"; Api.refreshRequest; Api.mark_retry (Api.get "/images")]
       [] [] "").
Proof. vm_compute. reflexivity. Qed.

(** A 401 on an authentication endpoint is passed to the caller as it is:
    a login with wrong credentials makes one request and sets the message
    of the server. *)
Example wrong_password_is_not_retried :
  sent (snd (AuthStore.login net_expired_once someone initialWorld))
    = [loginRequest someone] /\
  store (snd (AuthStore.login net_expired_once someone initialWorld))
    = mkAuthState JNull false (Some "Token expired"%string) false false.
Proof. vm_compute. auto. Qed.

(** The restoration goes through the interceptor too: an expired
    credential that can be refreshed restores the session. *)
Example restore_after_refresh :
  AuthStore.restoreAuthFromCookies net_expired_once initialWorld
  = (Fulfilled (JUser alice),
     mkWorld (mkAuthState (JUser alice) false None true true)
       [meRequest; Api.refreshRequest; Api.mark_retry meRequest] [] [] "").
Proof. vm_compute. reflexivity. Qed.

(* ===================================================================== *)
(** ** Further properties of the HTTP client                               *)
(* ===================================================================== *)

Lemma extended_nil (w : World) : extended w [] [] [] = w.
Proof. destruct w; unfold extended; simpl. now rewrite !app_nil_r. Qed.

Lemma transport_run (net : Network) (c : RequestConfig) (w : World) :
  Api.transport net c w = (settle c (net (length (sent w)) c), extended w [c] [] []).
Proof.
  unfold Api.transport, settle, extended. rewrite !app_nil_r.
  destruct (net (length (sent w)) c); reflexivity.
Qed.

Lemma auth_endpoint_is_one_request_aux
    (net : Network) (c : RequestConfig) (w : World) :
  Api.isAuthEndpoint (url c) = true ->
  Api.instance_request net c w
  = (settle c (net (length (sent w)) c), extended w [c] [] []).
Proof.
  intros H. rewrite (auth_endpoint_once net c w H). apply transport_run.
Qed.

(** X1.  A call whose URL contains one of the four authentication paths
    is one request whatever the answer: a 401 on it starts no refresh and
    no replay, dispatches no event, and the caller gets the outcome of that
    one request.  The test is a substring test, so it also holds for a URL
    that only mentions such a path. *)
Theorem auth_endpoint_is_one_request
    (net : Network) (c : RequestConfig) (w : World) :
  Api.isAuthEndpoint (url c) = true ->
  Api.instance_request net c w
  = (settle c (net (length (sent w)) c), extended w [c] [] []).
Proof.
  intros H. rewrite instance_request_spent.
  - apply transport_run.
  - unfold Api.retry_budget. now rewrite H.
Qed.

Lemma auth_endpoint_is_one_request_witness :
  Api.instance_request net_always_401 (Api.get "/gallery?next=/auth/login") initialWorld
  = (Rejected (AxiosError "Request failed with status code 401"
                 (Api.get "/gallery?next=/auth/login") (Some expired)),
     extended initialWorld [Api.get "/gallery?next=/auth/login"] [] []).
Proof.
  exact (auth_endpoint_is_one_request net_always_401
           (Api.get "/gallery?next=/auth/login") initialWorld eq_refl).
Defined.

(** X2.  A call that carries the retry mark is one request whatever the
    answer: the replay of a call is never followed by a second refresh. *)
Theorem marked_call_is_one_request
    (net : Network) (c : RequestConfig) (w : World) :
  _retry c = true ->
  Api.instance_request net c w
  = (settle c (net (length (sent w)) c), extended w [c] [] []).
Proof.
  intros H. rewrite instance_request_spent.
  - apply transport_run.
  - unfold Api.retry_budget. rewrite H. now rewrite orb_true_r.
Qed.

Lemma marked_call_is_one_request_witness :
  Api.instance_request net_always_401 (Api.mark_retry (Api.get "/images")) initialWorld
  = (Rejected (AxiosError "Request failed with status code 401"
                 (Api.mark_retry (Api.get "/images")) (Some expired)),
     extended initialWorld [Api.mark_retry (Api.get "/images")] [] []).
Proof.
  exact (marked_call_is_one_request net_always_401
           (Api.mark_retry (Api.get "/images")) initialWorld eq_refl).
Defined.

Lemma other_outcomes_aux
    (net : Network) (c : RequestConfig) (w : World) :
  answered_401 (net (length (sent w)) c) = false ->
  Api.instance_request net c w
  = (settle c (net (length (sent w)) c), extended w [c] [] []).
Proof.
  intros H. rewrite instance_request_unrolled, transport_run.
  destruct (net (length (sent w)) c) as [r | m r]; simpl; [reflexivity |].
  destruct (Api.isAuthEndpoint (url c)); [reflexivity |].
  unfold Api.is401, err_status; simpl.
  destruct r as [r |]; simpl in *; [rewrite H |]; reflexivity.
Qed.

(** X3.  A call that is not answered 401 (a reply the adapter resolves
    with, an error reply with another status, or no reply at all) is one
    request, and the caller gets its outcome unchanged. *)
Theorem other_outcomes_pass_through
    (net : Network) (c : RequestConfig) (w : World) :
  answered_401 (net (length (sent w)) c) = false ->
  Api.instance_request net c w
  = (settle c (net (length (sent w)) c), extended w [c] [] []).
Proof.
  intros H. rewrite instance_request_unrolled, transport_run.
  destruct (net (length (sent w)) c) as [r | m r]; simpl; [reflexivity |].
  destruct (Api.isAuthEndpoint (url c)); [reflexivity |].
  unfold Api.is401, err_status; simpl.
  destruct r as [r |]; simpl in *; [rewrite H |]; reflexivity.
Qed.

Lemma other_outcomes_pass_through_witness :
  Api.instance_request net_broken (Api.get "/images") initialWorld
  = (settle (Api.get "/images") (net_broken 0 (Api.get "/images")),
     extended initialWorld [Api.get "/images"] [] []).
Proof.
  exact (other_outcomes_pass_through net_broken (Api.get "/images") initialWorld eq_refl).
Defined.

(** X4.  Whatever the backend does, one call through the client hands
    over the call itself and then nothing, or one refresh, or one refresh
    and one replay: never more than three requests and never two
    refreshes.  The session-ended event is dispatched exactly when the
    refresh was made and failed, and then the caller is rejected with an
    error of the refresh request. *)
Theorem one_call_is_at_most_three_requests
    (net : Network) (c : RequestConfig) (w : World) :
  (sent (snd (Api.instance_request net c w)) = sent w ++ [c] /\
   events (snd (Api.instance_request net c w)) = events w) \/
  (sent (snd (Api.instance_request net c w)) = sent w ++ [c; Api.refreshRequest] /\
   events (snd (Api.instance_request net c w)) = events w ++ [Api.AUTH_LOGOUT] /\
   exists m r,
     fst (Api.instance_request net c w) = Rejected (AxiosError m Api.refreshRequest r)) \/
  (sent (snd (Api.instance_request net c w))
     = sent w ++ [c; Api.refreshRequest; Api.mark_retry c] /\
   events (snd (Api.instance_request net c w)) = events w).
Proof.
  rewrite instance_request_unrolled, transport_run.
  assert (Hone : forall res : Settled AxiosResponse,
            sent (snd (res, extended w [c] [] [])) = sent w ++ [c] /\
            events (snd (res, extended w [c] [] [])) = events w)
    by (intros res; unfold extended; simpl; now rewrite app_nil_r).
  destruct (net (length (sent w)) c) as [r | m r]; simpl settle; cbv iota beta;
    [left; apply Hone |].
  destruct (Api.isAuthEndpoint (url c)); [left; apply Hone |].
  destruct (Api.is401 (AxiosError m c r) && negb (_retry c)); [| left; apply Hone].
  right. rewrite transport_run.
  destruct (net (length (sent (extended w [c] [] []))) Api.refreshRequest)
    as [r1 | m1 r1]; simpl settle; cbv iota beta.
  - right. rewrite transport_run. unfold extended; simpl.
    rewrite <- ?app_assoc, ?app_nil_r; simpl. auto.
  - left. run_async. unfold extended; simpl.
    rewrite <- ?app_assoc, ?app_nil_r; simpl. eauto.
Qed.

Lemma extended_extended (w : World) (r1 r2 : list RequestConfig) (e1 e2 l1 l2 : list string) :
  extended (extended w r1 e1 l1) r2 e2 l2 = extended w (r1 ++ r2) (e1 ++ e2) (l1 ++ l2).
Proof. unfold extended; simpl. now rewrite !app_assoc. Qed.

(** A call through the client only adds to the three traces. *)
Lemma instance_request_extends (net : Network) (c : RequestConfig) (w : World) :
  exists requests dispatched lines,
    snd (Api.instance_request net c w) = extended w requests dispatched lines.
Proof.
  rewrite instance_request_unrolled, transport_run.
  destruct (settle c (net (length (sent w)) c)) as [r | err];
    [do 3 eexists; reflexivity |].
  destruct (Api.isAuthEndpoint (url c)); [do 3 eexists; reflexivity |].
  destruct (Api.is401 err && negb (_retry c)); [| do 3 eexists; reflexivity].
  rewrite transport_run.
  destruct (settle Api.refreshRequest
              (net (length (sent (extended w [c] [] []))) Api.refreshRequest)) as [r | e].
  - rewrite transport_run. cbn [snd]. rewrite !extended_extended.
    do 3 eexists; reflexivity.
  - run_async. exists [c; Api.refreshRequest], [Api.AUTH_LOGOUT],
      ["Refresh failed, user is no longer authenticated"%string].
    unfold extended; simpl. now rewrite <- !app_assoc.
Qed.

Lemma instance_request_same_page (net : Network) (c : RequestConfig) (w : World) :
  same_page w (snd (Api.instance_request net c w)).
Proof.
  destruct (instance_request_extends net c w) as (rq & ev & ln & H).
  rewrite H. split; reflexivity.
Qed.

(** X5.  No method of the client writes the store or the title: after
    [login], [signup], [logout], [refreshAccessToken],
    [requestPasswordReset], [updatePassword] and [getCurrentUser], whatever
    the outcome, both are as before the call. *)
Theorem client_never_writes_the_store
    (net : Network) (w : World) (credentials : Credentials)
    (reset_email token new_password : string) :
  same_page w (snd (Api.login net credentials w)) /\
  same_page w (snd (Api.signup net credentials w)) /\
  same_page w (snd (Api.logout net w)) /\
  same_page w (snd (Api.refreshAccessToken net w)) /\
  same_page w (snd (Api.requestPasswordReset net reset_email w)) /\
  same_page w (snd (Api.updatePassword net token new_password w)) /\
  same_page w (snd (Api.getCurrentUser net w)).
Proof.
  unfold Api.login, Api.signup, Api.logout, Api.refreshAccessToken,
    Api.requestPasswordReset, Api.updatePassword, Api.getCurrentUser.
  unfold bind, try_catch, try_finally, ret, throw, console_log, dispatchEvent.
  repeat split;
    match goal with
    | |- context [Api.instance_request net ?c w] =>
        destruct (instance_request_same_page net c w) as [Hs Ht];
        destruct (Api.instance_request net c w) as [[r | e] w1]; simpl in *;
        try destruct (payload (body r)); simpl; assumption
    end.
Qed.

(** X6.  [ApiClient.logout] makes exactly one request and dispatches the
    session-ended event exactly once, whether the request succeeds or not;
    it is rejected exactly when the request is, with the same error. *)
Theorem client_logout_dispatches_once (net : Network) (w : World) :
  Api.logout net w
  = (match net (length (sent w)) logoutRequest with
     | NetResolve _ => Fulfilled tt
     | NetReject m r => Rejected (AxiosError m logoutRequest r)
     end,
     extended w [logoutRequest] [Api.AUTH_LOGOUT] []).
Proof.
  unfold Api.logout, try_finally, bind, dispatchEvent, ret.
  fold logoutRequest.
  rewrite (auth_endpoint_is_one_request_aux net logoutRequest w eq_refl).
  unfold extended; simpl. rewrite !app_nil_r.
  destruct (net (length (sent w)) logoutRequest); reflexivity.
Qed.

(** X7.  When the first answer to [GET /auth/me] is a reply the adapter
    resolves with, [getCurrentUser] makes that one request; it returns the
    record of the envelope when there is one, and otherwise is rejected
    with the error "Invalid response structure from /auth/me", which it
    logs like every other error. *)
Theorem getCurrentUser_needs_a_record
    (net : Network) (w : World) (r : AxiosResponse) :
  net (length (sent w)) meRequest = NetResolve r ->
  Api.getCurrentUser net w
  = match payload (body r) with
    | Some u => (Fulfilled u, extended w [meRequest] [] [])
    | None =>
        (Rejected (PlainError "Invalid response structure from /auth/me"),
         extended w [meRequest] [] ["getCurrentUser error:"%string])
    end.
Proof.
  intros H. unfold Api.getCurrentUser, try_catch, bind. fold meRequest.
  rewrite other_outcomes_aux by (now rewrite H). rewrite H; simpl.
  destruct (payload (body r)); run_async; unfold extended; simpl;
    now rewrite ?app_nil_r.
Qed.

Lemma getCurrentUser_needs_a_record_witness :
  Api.getCurrentUser net_empty initialWorld
  = (Rejected (PlainError "Invalid response structure from /auth/me"),
     extended initialWorld [meRequest] [] ["getCurrentUser error:"%string]).
Proof.
  exact (getCurrentUser_needs_a_record net_empty initialWorld ok_empty eq_refl).
Defined.

(* ===================================================================== *)
(** ** Further properties of the session store                             *)
(* ===================================================================== *)

(** X8.  When the signup request is resolved, [signup] returns the
    identity record of the reply, [user] holds that same value and
    [hasCredentials] is [true].  When the request is rejected, the caller
    is rejected with the same error and [error] holds the [detail] of the
    error reply when there is a non-empty one, else the message of the
    error when it is non-empty, else ["Signup failed"]. *)
Theorem signup_outcomes (net : Network) (credentials : Credentials) (w : World) :
  match net (length (sent w)) (signupRequest credentials) with
  | NetResolve r =>
      let record :=
        match payload (body r) with
        | Some u => JUser u
        | None => JUndefined
        end in
      fst (AuthStore.signup net credentials w) = Fulfilled record /\
      user (store (snd (AuthStore.signup net credentials w))) = record /\
      hasCredentials (store (snd (AuthStore.signup net credentials w))) = true
  | NetReject m r =>
      let shown :=
        match r with
        | Some (mkResponse _ (mkApiResponse _ _ (Some (String a d)))) => String a d
        | _ =>
            match m with
            | String a m' => String a m'
            | EmptyString => "Signup failed"%string
            end
        end in
      fst (AuthStore.signup net credentials w)
        = Rejected (AxiosError m (signupRequest credentials) r) /\
      error (store (snd (AuthStore.signup net credentials w))) = Some shown
  end.
Proof.
  rewrite store_signup_run; simpl.
  destruct (net (length (sent w)) (signupRequest credentials)) as [r | m r]; simpl.
  - auto.
  - split; [reflexivity |].
    unfold AuthStore.errorMsg, or_else, err_detail; simpl.
    destruct r as [[st [p ms [[| a d] |]]] |]; simpl; destruct m; reflexivity.
Qed.

(** X9.  [fetchCurrentUser] is always fulfilled, and the whole store after
    it is decided by the outcome of its identity fetch alone: the record,
    no error, initialized and with credentials when the fetch succeeded;
    [null], no error, initialized and without credentials when it failed.
    Nothing of the state before the call survives, a stale [error]
    included. *)
Theorem fetchCurrentUser_resets_the_store (net : Network) (w : World) :
  match fst (Api.getCurrentUser net w) with
  | Fulfilled u =>
      fst (AuthStore.fetchCurrentUser net w) = Fulfilled (JUser u) /\
      store (snd (AuthStore.fetchCurrentUser net w))
        = mkAuthState (JUser u) false None true true
  | Rejected _ =>
      fst (AuthStore.fetchCurrentUser net w) = Fulfilled JNull /\
      store (snd (AuthStore.fetchCurrentUser net w))
        = mkAuthState JNull false None true false
  end.
Proof.
  rewrite store_fetchCurrentUser_run.
  destruct (fst (Api.getCurrentUser net w)); simpl; auto.
Qed.

(** The operations that record a message and throw again have one shape. *)
Lemma reporting_run {A} (call : Async A) (fallback : string) (w : World) :
  framed call ->
  store (snd (call w)) = store w ->
  (set_isLoading true ;;
   set_error None ;;
   try_finally
     (try_catch call
        (fun err => set_error (Some (AuthStore.errorMsg err fallback)) ;; throw err))
     (set_isLoading false)) w
  = (fst (call w),
     mkWorld (reported (store w) (recorded (fst (call w)) fallback))
             (sent (snd (call w))) (events (snd (call w)))
             (console (snd (call w))) (title (snd (call w)))).
Proof.
  intros Hf Hs. run_async.
  pose proof (Hf (fun s => mkAuthState (user s) true None (isInitialized s) (hasCredentials s))
                 (fun t => t) w) as H.
  unfold update in H; simpl in H. rewrite H.
  destruct (call w) as [[a | e] w1]; simpl in *; rewrite Hs; reflexivity.
Qed.

Lemma then_ret_framed {A B} (m : Async A) (f : A -> B) :
  framed m -> framed (x <- m ;; ret (f x)).
Proof.
  intros H g t w. unfold bind, ret. rewrite (H g t w).
  destruct (m w) as [[a | e] w1]; reflexivity.
Qed.

Lemma then_ret_store {A B} (m : Async A) (f : A -> B) (w : World) :
  store (snd (m w)) = store w -> store (snd ((x <- m ;; ret (f x)) w)) = store w.
Proof. unfold bind, ret. destruct (m w) as [[a | e] w1]; simpl; auto. Qed.

Lemma store_requestPasswordReset_run (net : Network) (reset_email : string) (w : World) :
  AuthStore.requestPasswordReset net reset_email w
  = (fst (Api.requestPasswordReset net reset_email w),
     mkWorld (reported (store w)
                (recorded (fst (Api.requestPasswordReset net reset_email w))
                   "Password reset failed"))
             (sent (snd (Api.requestPasswordReset net reset_email w)))
             (events (snd (Api.requestPasswordReset net reset_email w)))
             (console (snd (Api.requestPasswordReset net reset_email w)))
             (title (snd (Api.requestPasswordReset net reset_email w)))).
Proof.
  apply reporting_run.
  - apply then_ret_framed, instance_request_framed.
  - apply then_ret_store, instance_request_store.
Qed.

Lemma store_updatePassword_run (net : Network) (newPassword : string) (w : World) :
  AuthStore.updatePassword net newPassword w
  = (fst (Api.updatePassword net "" newPassword w),
     mkWorld (reported (store w)
                (recorded (fst (Api.updatePassword net "" newPassword w))
                   "Update password failed"))
             (sent (snd (Api.updatePassword net "" newPassword w)))
             (events (snd (Api.updatePassword net "" newPassword w)))
             (console (snd (Api.updatePassword net "" newPassword w)))
             (title (snd (Api.updatePassword net "" newPassword w)))).
Proof.
  apply reporting_run.
  - apply then_ret_framed, instance_request_framed.
  - apply then_ret_store, instance_request_store.
Qed.

(** The first request of a call is the call itself. *)
Lemma instance_request_first (net : Network) (c : RequestConfig) (w : World) :
  exists more, sent (snd (Api.instance_request net c w)) = sent w ++ c :: more.
Proof.
  rewrite instance_request_unrolled, transport_run.
  destruct (settle c (net (length (sent w)) c)) as [r | err];
    [exists []; reflexivity |].
  destruct (Api.isAuthEndpoint (url c)); [exists []; reflexivity |].
  destruct (Api.is401 err && negb (_retry c)); [| exists []; reflexivity].
  rewrite transport_run.
  destruct (settle Api.refreshRequest
              (net (length (sent (extended w [c] [] []))) Api.refreshRequest)) as [r | e].
  - rewrite transport_run. exists [Api.refreshRequest; Api.mark_retry c].
    unfold extended; simpl. now rewrite <- !app_assoc.
  - run_async. exists [Api.refreshRequest].
    unfold extended; simpl. now rewrite <- !app_assoc.
Qed.

Lemma then_ret_sent {A B} (m : Async A) (f : A -> B) (w : World) :
  sent (snd ((x <- m ;; ret (f x)) w)) = sent (snd (m w)).
Proof. unfold bind, ret. destruct (m w) as [[a | e] w1]; reflexivity. Qed.

(** X10.  [requestPasswordReset] settles as its call to the client does:
    fulfilled with the body of the reply, or rejected with the same error.
    It never writes [user], [hasCredentials] or [isInitialized]; it leaves
    [isLoading] at [false] and [error] at [null] on success, at the message
    derived from the error (fallback "Password reset failed") on failure.
    The first request it hands over is the one to [/auth/password-reset]
    with the given address. *)
Theorem requestPasswordReset_keeps_session
    (net : Network) (reset_email : string) (w : World) :
  fst (AuthStore.requestPasswordReset net reset_email w)
    = fst (Api.requestPasswordReset net reset_email w) /\
  store (snd (AuthStore.requestPasswordReset net reset_email w))
    = reported (store w)
        (recorded (fst (AuthStore.requestPasswordReset net reset_email w))
           "Password reset failed") /\
  exists more,
    sent (snd (AuthStore.requestPasswordReset net reset_email w))
    = sent w ++ passwordResetRequest reset_email :: more.
Proof.
  rewrite store_requestPasswordReset_run; simpl.
  repeat split.
  unfold Api.requestPasswordReset. rewrite then_ret_sent.
  apply instance_request_first.
Qed.

(** X11.  [updatePassword] settles as its call to the client does.  It
    never writes [user], [hasCredentials] or [isInitialized]; it leaves
    [isLoading] at [false] and [error] at [null] on success, at the message
    derived from the error (fallback "Update password failed") on failure.
    The first request it hands over is the one to [/auth/update-password],
    which carries the new password and an empty [access_token]. *)
Theorem updatePassword_keeps_session
    (net : Network) (newPassword : string) (w : World) :
  fst (AuthStore.updatePassword net newPassword w)
    = fst (Api.updatePassword net "" newPassword w) /\
  store (snd (AuthStore.updatePassword net newPassword w))
    = reported (store w)
        (recorded (fst (AuthStore.updatePassword net newPassword w))
           "Update password failed") /\
  exists more,
    sent (snd (AuthStore.updatePassword net newPassword w))
    = sent w ++ updatePasswordRequest newPassword :: more.
Proof.
  rewrite store_updatePassword_run; simpl.
  repeat split.
  unfold Api.updatePassword. rewrite then_ret_sent.
  apply instance_request_first.
Qed.

(** X12.  A session that has expired and cannot be refreshed, met by
    [updatePassword]: the caller is rejected with the error of the refresh
    call, the session-ended event is dispatched once, and yet the store
    keeps [user] and [hasCredentials] as they were: nothing in the store
    reacts to the event. *)
Theorem updatePassword_on_dead_session
    (net : Network) (newPassword : string) (w : World)
    (m m' : string) (reply : AxiosResponse) (r' : option AxiosResponse) :
  net (length (sent w)) (updatePasswordRequest newPassword) = NetReject m (Some reply) ->
  status reply = 401%Z ->
  net (S (length (sent w))) Api.refreshRequest = NetReject m' r' ->
  fst (AuthStore.updatePassword net newPassword w)
    = Rejected (AxiosError m' Api.refreshRequest r') /\
  events (snd (AuthStore.updatePassword net newPassword w))
    = events w ++ [Api.AUTH_LOGOUT] /\
  user (store (snd (AuthStore.updatePassword net newPassword w))) = user (store w) /\
  hasCredentials (store (snd (AuthStore.updatePassword net newPassword w)))
    = hasCredentials (store w).
Proof.
  intros H1 H401 H2.
  rewrite store_updatePassword_run; simpl.
  unfold Api.updatePassword, bind, ret.
  fold (updatePasswordRequest newPassword).
  rewrite (instance_request_on_401 net (updatePasswordRequest newPassword) w m reply
             eq_refl eq_refl H1 H401).
  rewrite H2; simpl. auto.
Qed.

Lemma updatePassword_on_dead_session_witness :
  fst (AuthStore.updatePassword net_always_401 "secret1" signed_in)
    = Rejected (AxiosError "Request failed with status code 401"
                  Api.refreshRequest (Some expired)) /\
  events (snd (AuthStore.updatePassword net_always_401 "secret1" signed_in))
    = events signed_in ++ [Api.AUTH_LOGOUT] /\
  user (store (snd (AuthStore.updatePassword net_always_401 "secret1" signed_in)))
    = user (store signed_in) /\
  hasCredentials (store (snd (AuthStore.updatePassword net_always_401 "secret1" signed_in)))
    = hasCredentials (store signed_in).
Proof.
  exact (updatePassword_on_dead_session net_always_401 "secret1" signed_in
           "Request failed with status code 401" "Request failed with status code 401"
           expired (Some expired) eq_refl eq_refl eq_refl).
Defined.

(** What one operation does to [user] and [hasCredentials]. *)
Lemma user_has_credentials_after_op
    (net : Network) (op : AuthStore.StoreOp) (w : World) :
  user_has_credentials (store w) = true ->
  user_has_credentials (store (AuthStore.run_op net op w)) = true.
Proof.
  intros H. destruct op; simpl.
  - rewrite store_login_run; simpl.
    destruct (net (length (sent w)) (loginRequest credentials)); simpl; [| exact H].
    unfold user_has_credentials; simpl. apply implb_true_r.
  - rewrite store_signup_run; simpl.
    destruct (net (length (sent w)) (signupRequest credentials)); simpl; [| exact H].
    unfold user_has_credentials; simpl. apply implb_true_r.
  - rewrite store_logout_run; simpl.
    destruct (net (length (sent w)) logoutRequest); reflexivity.
  - rewrite store_fetchCurrentUser_run; simpl.
    destruct (fst (Api.getCurrentUser net w)); reflexivity.
  - rewrite store_restore_run; simpl.
    destruct (fst (Api.getCurrentUser net w)); reflexivity.
  - rewrite store_requestPasswordReset_run; simpl. exact H.
  - rewrite store_updatePassword_run; simpl. exact H.
  - exact H.
Qed.

(** X13.  In every run of the store, that is after any sequence of public
    operations started in the initial state, [hasCredentials] is [true]
    whenever [user] is not [null]; so the computed [isAuthenticated]
    ([hasCredentials || user !== null]) is just [hasCredentials]. *)
Theorem user_never_outlives_credentials
    (net : Network) (history : list AuthStore.StoreOp) :
  user_has_credentials (store (AuthStore.run_ops net history initialWorld)) = true /\
  AuthStore.isAuthenticated (store (AuthStore.run_ops net history initialWorld))
    = hasCredentials (store (AuthStore.run_ops net history initialWorld)).
Proof.
  assert (H : user_has_credentials
                (store (AuthStore.run_ops net history initialWorld)) = true).
  { generalize initialWorld (eq_refl : user_has_credentials (store initialWorld) = true).
    induction history as [| op ops IH]; intros w Hw; [exact Hw |].
    change (AuthStore.run_ops net (op :: ops) w)
      with (AuthStore.run_ops net ops (AuthStore.run_op net op w)).
    apply IH, user_has_credentials_after_op, Hw. }
  split; [exact H |].
  unfold user_has_credentials, AuthStore.isAuthenticated in *.
  destruct (hasCredentials (store (AuthStore.run_ops net history initialWorld)));
    [reflexivity |].
  destruct (user (store (AuthStore.run_ops net history initialWorld)));
    simpl in *; congruence.
Qed.

(** X14.  The computed [isAuthenticated] after the operations that decide
    about the session, from any state: [false] after [logout], whatever the
    backend did; [true] after a [login] or [signup] whose request was
    resolved (even when the reply carried no record) and unchanged after
    one whose request was rejected; after [fetchCurrentUser] and
    [restoreAuthFromCookies], [true] exactly when the identity fetch
    succeeded. *)
Theorem isAuthenticated_after
    (net : Network) (credentials : Credentials) (w : World) :
  AuthStore.isAuthenticated (store (snd (AuthStore.logout net w))) = false /\
  AuthStore.isAuthenticated (store (snd (AuthStore.login net credentials w)))
    = match net (length (sent w)) (loginRequest credentials) with
      | NetResolve _ => true
      | NetReject _ _ => AuthStore.isAuthenticated (store w)
      end /\
  AuthStore.isAuthenticated (store (snd (AuthStore.signup net credentials w)))
    = match net (length (sent w)) (signupRequest credentials) with
      | NetResolve _ => true
      | NetReject _ _ => AuthStore.isAuthenticated (store w)
      end /\
  AuthStore.isAuthenticated (store (snd (AuthStore.fetchCurrentUser net w)))
    = match fst (Api.getCurrentUser net w) with
      | Fulfilled _ => true
      | Rejected _ => false
      end /\
  AuthStore.isAuthenticated (store (snd (AuthStore.restoreAuthFromCookies net w)))
    = match fst (Api.getCurrentUser net w) with
      | Fulfilled _ => true
      | Rejected _ => false
      end.
Proof.
  rewrite store_logout_run, store_login_run, store_signup_run,
    store_fetchCurrentUser_run, store_restore_run; simpl.
  repeat split.
  - destruct (net (length (sent w)) logoutRequest); reflexivity.
  - destruct (net (length (sent w)) (loginRequest credentials)); reflexivity.
  - destruct (net (length (sent w)) (signupRequest credentials)); reflexivity.
  - destruct (fst (Api.getCurrentUser net w)); reflexivity.
  - destruct (fst (Api.getCurrentUser net w)); reflexivity.
Qed.

Lemma error_after_op
    (net : Network) (op : AuthStore.StoreOp) (w : World) :
  error (store (AuthStore.run_op net op w)) =
  match op with
  | AuthStore.OpLogin c => recorded (fst (AuthStore.login net c w)) "Login failed"
  | AuthStore.OpSignup c => recorded (fst (AuthStore.signup net c w)) "Signup failed"
  | AuthStore.OpRequestPasswordReset e =>
      recorded (fst (AuthStore.requestPasswordReset net e w)) "Password reset failed"
  | AuthStore.OpUpdatePassword p =>
      recorded (fst (AuthStore.updatePassword net p w)) "Update password failed"
  | AuthStore.OpLogout | AuthStore.OpFetchCurrentUser | AuthStore.OpClearError => None
  | AuthStore.OpRestore => error (store w)
  end.
Proof.
  destruct op; simpl.
  - rewrite store_login_run; simpl.
    destruct (net (length (sent w)) (loginRequest credentials)); reflexivity.
  - rewrite store_signup_run; simpl.
    destruct (net (length (sent w)) (signupRequest credentials)); reflexivity.
  - rewrite store_logout_run; simpl.
    destruct (net (length (sent w)) logoutRequest); reflexivity.
  - rewrite store_fetchCurrentUser_run; simpl.
    destruct (fst (Api.getCurrentUser net w)); reflexivity.
  - rewrite store_restore_run; simpl.
    destruct (fst (Api.getCurrentUser net w)); reflexivity.
  - rewrite store_requestPasswordReset_run; reflexivity.
  - rewrite store_updatePassword_run; reflexivity.
  - reflexivity.
Qed.


(** X15.  What an operation leaves in [error]: [login], [signup],
    [requestPasswordReset] and [updatePassword] leave [null] when they are
    fulfilled and the message derived from the error when they are
    rejected; [logout] leaves [null] even when it is rejected;
    [fetchCurrentUser] and [clearError] leave [null];
    [restoreAuthFromCookies] leaves what it found. *)
Theorem error_after_operation
    (net : Network) (op : AuthStore.StoreOp) (w : World) :
  error (store (AuthStore.run_op net op w)) =
  match op with
  | AuthStore.OpLogin c => recorded (fst (AuthStore.login net c w)) "Login failed"
  | AuthStore.OpSignup c => recorded (fst (AuthStore.signup net c w)) "Signup failed"
  | AuthStore.OpRequestPasswordReset e =>
      recorded (fst (AuthStore.requestPasswordReset net e w)) "Password reset failed"
  | AuthStore.OpUpdatePassword p =>
      recorded (fst (AuthStore.updatePassword net p w)) "Update password failed"
  | AuthStore.OpLogout | AuthStore.OpFetchCurrentUser | AuthStore.OpClearError => None
  | AuthStore.OpRestore => error (store w)
  end.
Proof.
  destruct op; simpl.
  - rewrite store_login_run; simpl.
    destruct (net (length (sent w)) (loginRequest credentials)); reflexivity.
  - rewrite store_signup_run; simpl.
    destruct (net (length (sent w)) (signupRequest credentials)); reflexivity.
  - rewrite store_logout_run; simpl.
    destruct (net (length (sent w)) logoutRequest); reflexivity.
  - rewrite store_fetchCurrentUser_run; simpl.
    destruct (fst (Api.getCurrentUser net w)); reflexivity.
  - rewrite store_restore_run; simpl.
    destruct (fst (Api.getCurrentUser net w)); reflexivity.
  - rewrite store_requestPasswordReset_run; reflexivity.
  - rewrite store_updatePassword_run; reflexivity.
  - reflexivity.
Qed.

Lemma or_else_nonempty (a : option string) (b : string) :
  b <> ""%string -> or_else a b <> ""%string.
Proof. intros Hb. destruct a as [[| c rest] |]; simpl; auto. discriminate. Qed.

(** X16.  No public operation other than [restoreAuthFromCookies]
    (which leaves [error] as it found it) ends with the empty string in
    [error]: a failure is shown with a non-empty message, whatever the
    error carries, since the chain [detail || message || fallback] ends in
    a non-empty fallback. *)
Theorem no_operation_shows_an_empty_message
    (net : Network) (op : AuthStore.StoreOp) (w : World) :
  op <> AuthStore.OpRestore ->
  error (store (AuthStore.run_op net op w)) <> Some ""%string.
Proof.
  intros Hop. rewrite error_after_op.
  assert (Hrec : forall A (o : Settled A) fallback,
             fallback <> ""%string -> recorded o fallback <> Some ""%string).
  { intros A [a | e] fallback Hf; simpl; [discriminate |].
    intros H; inversion H as [H1]; revert H1.
    unfold AuthStore.errorMsg. apply or_else_nonempty, or_else_nonempty, Hf. }
  destruct op; try discriminate; try (apply Hrec; discriminate).
  congruence.
Qed.

Lemma no_operation_shows_an_empty_message_witness :
  error (store (AuthStore.run_op
                  (fun _ _ => NetReject "" (Some (mkResponse 401 (mkApiResponse None None (Some "")))))
                  (AuthStore.OpLogin someone) initialWorld))
  <> Some ""%string.
Proof.
  apply (no_operation_shows_an_empty_message
           (fun _ _ => NetReject "" (Some (mkResponse 401 (mkApiResponse None None (Some "")))))
           (AuthStore.OpLogin someone) initialWorld).
  discriminate.
Defined.

(* ===================================================================== *)
(** ** Further properties of the navigation guard                          *)
(* ===================================================================== *)

(** The guard in closed form. *)
Lemma beforeEach_run (net : Network) (w0 : World) (to : RouteLocation) (w : World) :
  Main.beforeEach net w0 to w =
  if must_fetch to (store w) then
    let after := snd (Api.getCurrentUser net w) in
    match fst (Api.getCurrentUser net w) with
    | Fulfilled u =>
        (Fulfilled Next,
         mkWorld (mkAuthState (JUser u) false None true true)
                 (sent after) (events after) (console after) (title (titled to w)))
    | Rejected _ =>
        (Fulfilled (Main.toLogin to),
         mkWorld (mkAuthState JNull false None true false)
                 (sent after) (events after) (console after) (title (titled to w)))
    end
  else (Fulfilled (decided to (store w)), titled to w).
Proof.
  destruct (authPromise_fulfilled net w0) as [v Hv].
  unfold Main.beforeEach, Main.await, must_fetch, decided, toHome. rewrite Hv.
  run_async. fold (titled to w).
  destruct (String.eqb (to_name to) "login" && truthy (user (store w))); simpl;
    [reflexivity |].
  destruct (requires_auth to); simpl; [| reflexivity].
  destruct (hasCredentials (store w)); simpl; [| reflexivity].
  destruct (truthy (user (store w))); simpl; [reflexivity |].
  rewrite store_fetchCurrentUser_run; simpl.
  pose proof (getCurrentUser_framed net (fun s => s)
    (fun _ => (or_else (meta_title (to_meta to)) "App" ++ " - AI Image Gallery")%string) w) as Hf.
  unfold update in Hf; simpl in Hf.
  assert (Hw : titled to w =
    mkWorld (store w) (sent w) (events w) (console w)
      (or_else (meta_title (to_meta to)) "App" ++ " - AI Image Gallery")%string)
    by reflexivity.
  rewrite Hw, Hf; simpl.
  destruct (fst (Api.getCurrentUser net w)); reflexivity.
Qed.

(** X17.  A destination that does not require authentication (its meta
    says [false] or says nothing, as for the catch-all route) is let
    through without any request and without touching the store, unless it
    is the login page asked for while [user] holds a record. *)
Theorem public_destination_is_allowed
    (net : Network) (w0 : World) (to : RouteLocation) (w : World) :
  requires_auth to = false ->
  String.eqb (to_name to) "login" && truthy (user (store w)) = false ->
  Main.beforeEach net w0 to w = (Fulfilled Next, titled to w).
Proof.
  intros Hreq Hlogin. rewrite beforeEach_run.
  unfold must_fetch, decided. now rewrite Hlogin, Hreq.
Qed.

Lemma public_destination_is_allowed_witness :
  Main.beforeEach net_down initialWorld (resolve not_found_route "/nowhere") reloaded
  = (Fulfilled Next, titled (resolve not_found_route "/nowhere") reloaded).
Proof.
  exact (public_destination_is_allowed net_down initialWorld
           (resolve not_found_route "/nowhere") reloaded eq_refl eq_refl).
Defined.

(** X18.  The guard never rejects: for every destination, every state and
    every backend it is fulfilled, and what it passes to [next] is nothing
    (go on), the home redirect, or the login redirect whose [redirect]
    query is the full path of the destination.  It always sets
    [document.title] to the title of the destination (["App"] when there
    is none) followed by " - AI Image Gallery". *)
Theorem guard_always_decides
    (net : Network) (w0 : World) (to : RouteLocation) (w : World) :
  (fst (Main.beforeEach net w0 to w) = Fulfilled Next \/
   fst (Main.beforeEach net w0 to w) = Fulfilled (NextTo "home" [] true) \/
   fst (Main.beforeEach net w0 to w)
     = Fulfilled (NextTo "login" [("redirect"%string, fullPath to)] true)) /\
  title (snd (Main.beforeEach net w0 to w))
    = (or_else (meta_title (to_meta to)) "App" ++ " - AI Image Gallery")%string.
Proof.
  rewrite beforeEach_run.
  destruct (must_fetch to (store w)).
  - destruct (fst (Api.getCurrentUser net w)); simpl; auto.
  - simpl. split; [| reflexivity]. unfold decided, toHome, Main.toLogin.
    destruct (String.eqb (to_name to) "login" && truthy (user (store w))); auto.
    destruct (requires_auth to); auto.
    destruct (negb (hasCredentials (store w))); auto.
Qed.

(** X19.  For a destination of the route table that requires
    authentication there are two ways out of the guard: it lets the
    navigation through, and then the store holds credentials and an
    identity record; or it redirects to login, and then the store holds no
    credentials. *)
Theorem allowed_means_authenticated
    (net : Network) (w0 : World) (r : RouteRecord) (requested : string) (w : World) :
  In r routes ->
  requiresAuth (meta r) = Some true ->
  (fst (Main.beforeEach net w0 (resolve r requested) w) = Fulfilled Next /\
   hasCredentials (store (snd (Main.beforeEach net w0 (resolve r requested) w))) = true /\
   truthy (user (store (snd (Main.beforeEach net w0 (resolve r requested) w)))) = true) \/
  (fst (Main.beforeEach net w0 (resolve r requested) w)
     = Fulfilled (NextTo "login" [("redirect"%string, requested)] true) /\
   hasCredentials (store (snd (Main.beforeEach net w0 (resolve r requested) w))) = false).
Proof.
  intros Hin Hreq.
  rewrite (beforeEach_auth_required net w0 (resolve r requested) w
             (auth_routes_are_not_login r Hin Hreq) Hreq).
  case_eq (hasCredentials (store w)); intros Hc; simpl; [| right; auto].
  case_eq (truthy (user (store w))); intros Hu; simpl; [left; auto |].
  destruct (fst (Api.getCurrentUser net w)); simpl; [left | right]; auto.
Qed.

Lemma allowed_means_authenticated_witness :
  (fst (Main.beforeEach net_alice initialWorld (resolve home_route "/") reloaded)
     = Fulfilled Next /\
   hasCredentials
     (store (snd (Main.beforeEach net_alice initialWorld (resolve home_route "/") reloaded)))
     = true /\
   truthy (user
     (store (snd (Main.beforeEach net_alice initialWorld (resolve home_route "/") reloaded))))
     = true) \/
  (fst (Main.beforeEach net_alice initialWorld (resolve home_route "/") reloaded)
     = Fulfilled (NextTo "login" [("redirect"%string, "/"%string)] true) /\
   hasCredentials
     (store (snd (Main.beforeEach net_alice initialWorld (resolve home_route "/") reloaded)))
     = false).
Proof.
  exact (allowed_means_authenticated net_alice initialWorld home_route "/" reloaded
           home_route_in_table eq_refl).
Defined.

(** X20.  A navigation made right after the bootstrap never makes a
    request of its own and never writes the store: the restoration has
    left [user] and [hasCredentials] in agreement, so the guard decides on
    what the restoration found.  With a restored session the login page is
    redirected to home and everything else is let through; without one,
    destinations that require authentication are redirected to login and
    the others are let through. *)
Theorem first_navigation_needs_no_fetch
    (net : Network) (w0 : World) (to : RouteLocation) :
  Main.beforeEach net w0 to (Main.booted net w0)
  = (Fulfilled
       match Main.authPromise net w0 with
       | Fulfilled (JUser _) =>
           if String.eqb (to_name to) "login" then NextTo "home" [] true else Next
       | _ =>
           if requires_auth to
           then NextTo "login" [("redirect"%string, fullPath to)] true
           else Next
       end,
     titled to (Main.booted net w0)).
Proof.
  rewrite beforeEach_run.
  unfold Main.booted, Main.authPromise, must_fetch, decided, toHome, Main.toLogin.
  rewrite store_restore_run; simpl.
  destruct (fst (Api.getCurrentUser net w0)); simpl.
  - rewrite andb_true_r, andb_false_r; simpl.
    destruct (String.eqb (to_name to) "login"); simpl; [reflexivity |].
    destruct (requires_auth to); reflexivity.
  - rewrite !andb_false_r; simpl.
    destruct (requires_auth to); reflexivity.
Qed.

(* ===================================================================== *)
(** ** Properties of the page handlers                                     *)
(* ===================================================================== *)

Ltac run_handler :=
  unfold Page.hbind, Page.hret, Page.lift, Page.assign, Page.htry_catch,
    Page.htry_finally in *; simpl in *.

Lemma store_updatePassword_first (net : Network) (newPassword : string) (w : World) :
  exists more,
    sent (snd (AuthStore.updatePassword net newPassword w))
    = sent w ++ updatePasswordRequest newPassword :: more.
Proof.
  rewrite store_updatePassword_run; simpl.
  unfold Api.updatePassword. rewrite then_ret_sent.
  apply instance_request_first.
Qed.

Lemma store_requestPasswordReset_first (net : Network) (reset_email : string) (w : World) :
  exists more,
    sent (snd (AuthStore.requestPasswordReset net reset_email w))
    = sent w ++ passwordResetRequest reset_email :: more.
Proof.
  rewrite store_requestPasswordReset_run; simpl.
  unfold Api.requestPasswordReset. rewrite then_ret_sent.
  apply instance_request_first.
Qed.

(** X21.  The form that updates the password never rejects, and it checks
    before it sends: either it makes no request, leaves its refs alone and
    puts one of its three complaints in [error]; or the two fields are
    equal, the password has at least six code units, and the first request
    made is the one to [/auth/update-password] with that password.  No
    password that is empty, unconfirmed or shorter than six reaches the
    backend. *)
Theorem update_password_form_checks_before_sending
    (net : Network) (page : UpdatePasswordPage.Refs) (w : World) :
  fst (UpdatePasswordPage.handleSubmit net (page, w)) = Fulfilled tt /\
  ((sent (snd (snd (UpdatePasswordPage.handleSubmit net (page, w)))) = sent w /\
    fst (snd (UpdatePasswordPage.handleSubmit net (page, w))) = page /\
    exists complaint,
      In complaint updatePasswordComplaints /\
      error (store (snd (snd (UpdatePasswordPage.handleSubmit net (page, w)))))
        = Some complaint) \/
   (UpdatePasswordPage.newPassword page = UpdatePasswordPage.confirmPassword page /\
    6 <= String.length (UpdatePasswordPage.newPassword page) /\
    exists more,
      sent (snd (snd (UpdatePasswordPage.handleSubmit net (page, w))))
      = sent w ++ updatePasswordRequest (UpdatePasswordPage.newPassword page) :: more)).
Proof.
  destruct page as [np cp il sub tm]. unfold UpdatePasswordPage.handleSubmit.
  cbn [fst snd UpdatePasswordPage.newPassword UpdatePasswordPage.confirmPassword].
  unfold updatePasswordComplaints.
  destruct (Page.is_empty np || Page.is_empty cp).
  { run_handler. split; [reflexivity |]. left. run_async.
    repeat split. eexists; split; [| reflexivity]. simpl; auto. }
  destruct (String.eqb_spec np cp) as [Heq | Hne]; simpl negb; cbv iota.
  2:{ run_handler. split; [reflexivity |]. left. run_async.
      repeat split. eexists; split; [| reflexivity]. simpl; auto. }
  destruct (Nat.ltb_spec (String.length np) 6) as [Hlt | Hge].
  { run_handler. split; [reflexivity |]. left. run_async.
    repeat split. eexists; split; [| reflexivity]. simpl; auto. }
  destruct (store_updatePassword_first net np w) as [more Hmore].
  run_handler.
  destruct (AuthStore.updatePassword net np w) as [[b | e] w1]; simpl in *;
    (split; [reflexivity |]); right; repeat split; auto; exists more; exact Hmore.
Qed.

(** X22.  Once its checks are passed, the form that updates the password
    ends with [isLoading] back to [false] whatever the store did.  It is
    marked [submitted] and schedules its one push to [/] after 2000 ms
    exactly when [updatePassword] was fulfilled; after a failure it is as
    it was, ready for another try. *)
Theorem update_password_form_outcome
    (net : Network) (page : UpdatePasswordPage.Refs) (w : World) :
  UpdatePasswordPage.newPassword page <> ""%string ->
  UpdatePasswordPage.newPassword page = UpdatePasswordPage.confirmPassword page ->
  6 <= String.length (UpdatePasswordPage.newPassword page) ->
  fst (snd (UpdatePasswordPage.handleSubmit net (page, w)))
  = if fulfilled (fst (AuthStore.updatePassword net (UpdatePasswordPage.newPassword page) w))
    then UpdatePasswordPage.mkRefs
           (UpdatePasswordPage.newPassword page) (UpdatePasswordPage.confirmPassword page)
           false true
           (UpdatePasswordPage.timers page
              ++ [Page.mkTimer 2000 (Page.mkPush "/" false)])
    else UpdatePasswordPage.mkRefs
           (UpdatePasswordPage.newPassword page) (UpdatePasswordPage.confirmPassword page)
           false (UpdatePasswordPage.submitted page) (UpdatePasswordPage.timers page).
Proof.
  destruct page as [np cp il sub tm].
  cbn [UpdatePasswordPage.newPassword UpdatePasswordPage.confirmPassword
       UpdatePasswordPage.submitted UpdatePasswordPage.timers].
  intros Hne Heq Hlen. subst cp. unfold UpdatePasswordPage.handleSubmit.
  cbn [fst snd UpdatePasswordPage.newPassword UpdatePasswordPage.confirmPassword].
  replace (Page.is_empty np || Page.is_empty np) with false
    by (destruct np; [congruence | reflexivity]).
  rewrite String.eqb_refl; simpl negb; cbv iota.
  destruct (Nat.ltb_spec (String.length np) 6) as [Hlt | Hge];
    [exfalso; apply (Nat.lt_irrefl 6), (Nat.le_lt_trans _ _ _ Hlen Hlt) |].
  run_handler.
  destruct (AuthStore.updatePassword net np w) as [[b | e] w1]; reflexivity.
Qed.

Lemma update_password_form_outcome_witness :
  fst (snd (UpdatePasswordPage.handleSubmit net_alice
              (UpdatePasswordPage.mkRefs "secret1" "secret1" false false [], signed_in)))
  = UpdatePasswordPage.mkRefs "secret1" "secret1" false true
      [Page.mkTimer 2000 (Page.mkPush "/" false)].
Proof.
  refine (update_password_form_outcome net_alice
            (UpdatePasswordPage.mkRefs "secret1" "secret1" false false []) signed_in
            _ eq_refl _).
  - discriminate.
  - repeat constructor.
Defined.

(** X23.  The form that asks for a password reset never rejects.  With an
    empty address it makes no request, leaves its refs alone and puts
    "Please enter your email" in [error].  Otherwise the first request
    made is the one to [/auth/password-reset] with that address, the form
    ends with [isLoading] at [false], and it is marked [submitted] and
    schedules its push to [/login] after 3000 ms exactly when
    [requestPasswordReset] was fulfilled. *)
Theorem forgot_password_form_outcome
    (net : Network) (page : ForgotPasswordPage.Refs) (w : World) :
  fst (ForgotPasswordPage.handleSubmit net (page, w)) = Fulfilled tt /\
  if Page.is_empty (ForgotPasswordPage.email page) then
    sent (snd (snd (ForgotPasswordPage.handleSubmit net (page, w)))) = sent w /\
    fst (snd (ForgotPasswordPage.handleSubmit net (page, w))) = page /\
    error (store (snd (snd (ForgotPasswordPage.handleSubmit net (page, w)))))
      = Some "Please enter your email"%string
  else
    (exists more,
       sent (snd (snd (ForgotPasswordPage.handleSubmit net (page, w))))
       = sent w ++ passwordResetRequest (ForgotPasswordPage.email page) :: more) /\
    fst (snd (ForgotPasswordPage.handleSubmit net (page, w)))
    = if fulfilled
           (fst (AuthStore.requestPasswordReset net (ForgotPasswordPage.email page) w))
      then ForgotPasswordPage.mkRefs (ForgotPasswordPage.email page) false true
             (ForgotPasswordPage.timers page
                ++ [Page.mkTimer 3000 (Page.mkPush "/login" false)])
      else ForgotPasswordPage.mkRefs (ForgotPasswordPage.email page) false
             (ForgotPasswordPage.submitted page) (ForgotPasswordPage.timers page).
Proof.
  destruct page as [em il sub tm]. unfold ForgotPasswordPage.handleSubmit.
  cbn [fst snd ForgotPasswordPage.email ForgotPasswordPage.submitted
       ForgotPasswordPage.timers].
  destruct (Page.is_empty em).
  { run_handler. run_async. auto. }
  destruct (store_requestPasswordReset_first net em w) as [more Hmore].
  run_handler.
  destruct (AuthStore.requestPasswordReset net em w) as [[b | e] w1]; simpl in *;
    (split; [reflexivity |]); (split; [exists more; exact Hmore | reflexivity]).
Qed.

(** The signup page in closed form, for non-empty fields. *)
Lemma handleSignup_run
    (net : Network) (page : SignupPage.Refs) (w : World) :
  Page.is_empty (SignupPage.email page) || Page.is_empty (SignupPage.password page) = false ->
  SignupPage.handleSignup net (page, w)
  = let credentials := mkCredentials (SignupPage.email page) (SignupPage.password page) in
    match net (length (sent w)) (signupRequest credentials) with
    | NetResolve r =>
        (Fulfilled tt,
         (SignupPage.mkRefs "" "" "Account created successfully! You can now log in."
            (SignupPage.timers page ++ [Page.mkTimer 2000 (Page.mkPush "/login" false)]),
          mkWorld (mkAuthState (Api.data_of r) false None (isInitialized (store w)) true)
                  (sent w ++ [signupRequest credentials]) (events w) (console w) (title w)))
    | NetReject m r =>
        (Fulfilled tt,
         (page,
          mkWorld (mkAuthState (user (store w)) false
                     (Some (AuthStore.errorMsg
                              (AxiosError m (signupRequest credentials) r) "Signup failed"))
                     (isInitialized (store w)) (hasCredentials (store w)))
                  (sent w ++ [signupRequest credentials]) (events w)
                  (console w ++ ["Signup error:"%string; "Error details:"%string])
                  (title w)))
    end.
Proof.
  intros Hne. unfold SignupPage.handleSignup. cbn [fst snd]. rewrite Hne.
  run_handler. run_async.
  rewrite store_signup_run; simpl.
  destruct (net (length (sent w))
              (signupRequest (mkCredentials (SignupPage.email page) (SignupPage.password page))));
    simpl; [reflexivity |].
  destruct page; simpl. now rewrite <- app_assoc.
Qed.

(** X24.  The signup page never rejects.  With an empty field it makes no
    request and writes nothing but [error] and a console line: [isLoading]
    is left as it was.  With both fields filled it makes exactly the signup
    request and, from any state, leaves the store as [signup] left it, with
    [isLoading] (which the page writes itself around the call) at [false];
    it logs two lines after a failure.  It clears its fields, shows its
    success message and schedules its push to [/login] after 2000 ms
    exactly when the request was resolved; after a failure its refs are
    kept. *)
Theorem signup_page_outcome
    (net : Network) (page : SignupPage.Refs) (w : World) :
  fst (SignupPage.handleSignup net (page, w)) = Fulfilled tt /\
  if Page.is_empty (SignupPage.email page) || Page.is_empty (SignupPage.password page) then
    fst (snd (SignupPage.handleSignup net (page, w))) = page /\
    snd (snd (SignupPage.handleSignup net (page, w)))
    = extended
        (mkWorld (mkAuthState (user (store w)) (isLoading (store w))
                    (Some "Please fill in all fields"%string)
                    (isInitialized (store w)) (hasCredentials (store w)))
                 (sent w) (events w) (console w) (title w))
        [] [] ["Signup validation failed: missing fields"%string]
  else
    let credentials := mkCredentials (SignupPage.email page) (SignupPage.password page) in
    isLoading (store (snd (snd (SignupPage.handleSignup net (page, w))))) = false /\
    sent (snd (snd (SignupPage.handleSignup net (page, w))))
      = sent w ++ [signupRequest credentials] /\
    snd (snd (SignupPage.handleSignup net (page, w)))
    = match net (length (sent w)) (signupRequest credentials) with
      | NetResolve _ => snd (AuthStore.signup net credentials w)
      | NetReject _ _ =>
          extended (snd (AuthStore.signup net credentials w)) [] []
            ["Signup error:"%string; "Error details:"%string]
      end /\
    fst (snd (SignupPage.handleSignup net (page, w)))
    = match net (length (sent w)) (signupRequest credentials) with
      | NetResolve _ =>
          SignupPage.mkRefs "" "" "Account created successfully! You can now log in."
            (SignupPage.timers page ++ [Page.mkTimer 2000 (Page.mkPush "/login" false)])
      | NetReject _ _ => page
      end.
Proof.
  case_eq (Page.is_empty (SignupPage.email page) || Page.is_empty (SignupPage.password page));
    intros He.
  - unfold SignupPage.handleSignup. cbn [fst snd]. rewrite He.
    run_handler. run_async. unfold extended; simpl. rewrite !app_nil_r. auto.
  - cbv zeta. rewrite (handleSignup_run net page w He); cbv zeta.
    rewrite store_signup_run; cbv zeta.
    destruct (net (length (sent w))
                (signupRequest
                   (mkCredentials (SignupPage.email page) (SignupPage.password page))));
      simpl; unfold extended; simpl; rewrite ?app_nil_r; auto.
Qed.

(** X25.  After a signup that returned an identity record, the push to
    [/login] that the page has scheduled cannot show the login page: in
    the world the handler leaves, the guard redirects the login
    destination to home. *)
Theorem signed_up_user_is_sent_home
    (net : Network) (w0 : World) (page : SignupPage.Refs) (w : World)
    (r : AxiosResponse) (u : UserOut) :
  Page.is_empty (SignupPage.email page) || Page.is_empty (SignupPage.password page) = false ->
  net (length (sent w))
      (signupRequest (mkCredentials (SignupPage.email page) (SignupPage.password page)))
    = NetResolve r ->
  payload (body r) = Some u ->
  In (Page.mkTimer 2000 (Page.mkPush "/login" false))
     (SignupPage.timers (fst (snd (SignupPage.handleSignup net (page, w))))) /\
  fst (Main.beforeEach net w0 (resolve login_route "/login")
         (snd (snd (SignupPage.handleSignup net (page, w)))))
  = Fulfilled (NextTo "home" [] true).
Proof.
  intros Hne Hnet Hu. rewrite (handleSignup_run net page w Hne); cbv zeta.
  rewrite Hnet; simpl. split; [apply in_or_app; right; left; reflexivity |].
  rewrite beforeEach_run. unfold must_fetch, decided, Api.data_of; simpl.
  rewrite Hu; reflexivity.
Qed.

Lemma signed_up_user_is_sent_home_witness :
  In (Page.mkTimer 2000 (Page.mkPush "/login" false))
     (SignupPage.timers
        (fst (snd (SignupPage.handleSignup net_alice
                     (SignupPage.mkRefs "a@b.com" "secret" "" [], initialWorld))))) /\
  fst (Main.beforeEach net_alice initialWorld (resolve login_route "/login")
         (snd (snd (SignupPage.handleSignup net_alice
                      (SignupPage.mkRefs "a@b.com" "secret" "" [], initialWorld)))))
  = Fulfilled (NextTo "home" [] true).
Proof.
  exact (signed_up_user_is_sent_home net_alice initialWorld
           (SignupPage.mkRefs "a@b.com" "secret" "" []) initialWorld
           (mkResponse 200 (mkApiResponse (Some alice) None None)) alice
           eq_refl eq_refl eq_refl).
Defined.

(** X26.  The login page never rejects, whatever the backend and the
    router do, and for non-empty fields it ends with its [isLoading] at
    [false].  With an empty field it makes no request and no push.  When
    the login request is rejected it logs and makes no push; when it is
    resolved it makes one push, with [replace], to the [redirect] of the
    current route or to [/] when there is none, and a rejection of that
    push is logged like a failed login. *)
Theorem login_page_outcome
    (net : Network) (push : Page.PushTarget -> Async unit) (redirect : option string)
    (page : LoginPage.Refs) (w : World) :
  fst (LoginPage.handleLogin net push redirect (page, w)) = Fulfilled tt /\
  if Page.is_empty (LoginPage.email page) || Page.is_empty (LoginPage.password page) then
    fst (snd (LoginPage.handleLogin net push redirect (page, w))) = page /\
    snd (snd (LoginPage.handleLogin net push redirect (page, w)))
    = extended
        (mkWorld (mkAuthState (user (store w)) (isLoading (store w))
                    (Some "Please fill in all fields"%string)
                    (isInitialized (store w)) (hasCredentials (store w)))
                 (sent w) (events w) (console w) (title w))
        [] [] ["Login validation failed: missing fields"%string]
  else
    let credentials := mkCredentials (LoginPage.email page) (LoginPage.password page) in
    let logged := snd (AuthStore.login net credentials w) in
    let pushed := push (Page.mkPush (or_else redirect "/") true) logged in
    LoginPage.isLoading (fst (snd (LoginPage.handleLogin net push redirect (page, w))))
      = false /\
    snd (snd (LoginPage.handleLogin net push redirect (page, w)))
    = match net (length (sent w)) (loginRequest credentials) with
      | NetReject _ _ =>
          extended logged [] [] ["Login error:"%string; "Error details:"%string]
      | NetResolve _ =>
          if fulfilled (fst pushed) then snd pushed
          else extended (snd pushed) [] [] ["Login error:"%string; "Error details:"%string]
      end.
Proof.
  unfold LoginPage.handleLogin. cbn [fst snd].
  destruct (Page.is_empty (LoginPage.email page) || Page.is_empty (LoginPage.password page)).
  { run_handler. run_async. unfold extended; simpl. rewrite !app_nil_r. auto. }
  cbv zeta. run_handler.
  pose proof (store_login_run net
    (mkCredentials (LoginPage.email page) (LoginPage.password page)) w) as Hrun.
  cbv zeta in Hrun.
  destruct (net (length (sent w))
              (loginRequest (mkCredentials (LoginPage.email page) (LoginPage.password page))));
    rewrite Hrun; simpl.
  - match goal with |- context [push ?t ?x] => destruct (push t x) as [[[] | e] w2] end;
      simpl; run_async; unfold extended; simpl;
      rewrite <- ?app_assoc, ?app_nil_r; auto.
  - run_async. unfold extended; simpl. rewrite <- ?app_assoc, ?app_nil_r. auto.
Qed.

(** X27.  The logout of the sidebar navigates only when the backend
    agrees: when the logout request is rejected the handler is rejected
    with that error and makes no push (the store is cleared all the same);
    when it is resolved the handler is fulfilled and the push to [/login]
    is made, its own outcome being dropped. *)
Theorem sidebar_logout_stays_on_failure
    (net : Network) (push : Page.PushTarget -> Async unit) (w : World) :
  Sidebar.handleLogout net push w
  = match net (length (sent w)) logoutRequest with
    | NetReject m r =>
        (Rejected (AxiosError m logoutRequest r), snd (AuthStore.logout net w))
    | NetResolve _ =>
        (Fulfilled tt, snd (push (Page.mkPush "/login" false) (snd (AuthStore.logout net w))))
    end.
Proof.
  unfold Sidebar.handleLogout, bind. rewrite store_logout_run; cbv zeta.
  destruct (net (length (sent w)) logoutRequest); reflexivity.
Qed.

(** X28.  The logout of the home page navigates whatever the backend
    does: with a router whose push is fulfilled, the handler is fulfilled,
    its [isLoggingOut] is back to [false], and the last thing it did is
    one push to [/login], started in a world whose store holds neither a
    user nor credentials. *)
Theorem home_logout_always_leaves
    (net : Network) (push : Page.PushTarget -> Async unit)
    (page : HomePage.Refs) (w : World) :
  (forall t w', fst (push t w') = Fulfilled tt) ->
  fst (HomePage.handleLogout net push (page, w)) = Fulfilled tt /\
  fst (snd (HomePage.handleLogout net push (page, w))) = HomePage.mkRefs false /\
  exists before,
    user (store before) = JNull /\
    hasCredentials (store before) = false /\
    snd (snd (HomePage.handleLogout net push (page, w)))
    = snd (push (Page.mkPush "/login" false) before).
Proof.
  intros Hpush. unfold HomePage.handleLogout. run_handler.
  rewrite store_logout_run; cbv zeta.
  destruct (net (length (sent w)) logoutRequest); simpl; run_async;
    match goal with |- context [push ?t ?x] =>
      pose proof (Hpush t x) as H;
      assert (Hex : exists before,
                 user (store before) = JNull /\
                 hasCredentials (store before) = false /\
                 snd (push t x) = snd (push t before))
        by (exists x; auto);
      destruct (push t x) as [[[] | e] w2]; simpl in *; [auto | discriminate H]
    end.
Qed.

Lemma home_logout_always_leaves_witness :
  fst (HomePage.handleLogout net_down push_nowhere (HomePage.mkRefs false, signed_in))
    = Fulfilled tt /\
  fst (snd (HomePage.handleLogout net_down push_nowhere (HomePage.mkRefs false, signed_in)))
    = HomePage.mkRefs false /\
  exists before,
    user (store before) = JNull /\
    hasCredentials (store before) = false /\
    snd (snd (HomePage.handleLogout net_down push_nowhere (HomePage.mkRefs false, signed_in)))
    = snd (push_nowhere (Page.mkPush "/login" false) before).
Proof.
  apply (home_logout_always_leaves net_down push_nowhere (HomePage.mkRefs false) signed_in).
  reflexivity.
Defined.
